(** * videoEdit: the banner bot of [main.py]

    A shallow embedding of the session handling, the two-transport
    download, the transcode step and the statistics of
    [VideoLogoBotPro] (main.py), with the properties of its
    specification stated over it.

    Conventions.
    - Python [int] is [Z]; the [float] readings of [time.time()] and the
      progress percentage are exact rationals ([Qc]), [float('inf')] is a
      constructor of its own.
    - The three per-user dictionaries are finite maps keyed by the user
      id; the file system is a finite map from a path to the size of the
      file in bytes.
    - An [async def] is a function on the world that returns a value or
      raises; the collaborators (message channel, the two transports,
      [tempfile], [os.unlink], [subprocess.run], the clock) are an
      environment [Env] that fixes what each of their calls does.
    - Handlers run one after the other: the interleaving of two handlers
      at an [await] is outside the model.  The texts of the messages are
      kept as tags ([notice]); their formatting is presentation. *)

From Stdlib Require Import ZArith QArith Qcanon String List.
From Stdlib Require Import Ascii.
From stdpp Require Import gmap strings list fin_maps.

Open Scope Z_scope.

(* ===================================================================== *)
(** * Data model *)
(* ===================================================================== *)

(** [class BotState(Enum)] *)
Inductive BotState := IDLE | WAITING_BANNER | WAITING_VIDEO | PROCESSING.

#[global] Instance BotState_eq_dec : EqDecision BotState.
Proof. solve_decision. Defined.

(** The value of [fastest_processing_time]: a float that starts at
    [float('inf')]. *)
Inductive ftime := Finite (t : Qc) | Inf.

(** [class SystemStats] ([start_time] only feeds [get_uptime], which is
    presentation). *)
Record SystemStats := mkStats {
  processed_videos : Z;
  total_processing_time : Qc;
  errors_count : Z;
  largest_file_size : Z;
  fastest_processing_time : ftime
}.

(** [SystemStats.__init__] *)
Definition stats_init : SystemStats :=
  {| processed_videos := 0;
     total_processing_time := Q2Qc 0;
     errors_count := 0;
     largest_file_size := 0;
     fastest_processing_time := Inf |}.

(** Python's [max(a, b)] on integers: [b] when [a < b], else [a]. *)
Definition py_max (a b : Z) : Z := if a <? b then b else a.

(** Python's [min(a, b)] with [a] the stored fastest time and [b] a
    finite reading: [b] when [b < a], else [a]; every finite value is
    below [inf]. *)
Definition py_min (a : ftime) (b : Qc) : ftime :=
  match a with
  | Inf => Finite b
  | Finite t => if Qclt_le_dec b t then Finite b else Finite t
  end.

(** [SystemStats.update_processing_stats] *)
Definition update_processing_stats (processing_time : Qc) (file_size : Z)
    (self : SystemStats) : SystemStats :=
  {| processed_videos := processed_videos self + 1;
     total_processing_time := (total_processing_time self + processing_time)%Qc;
     errors_count := errors_count self;
     largest_file_size := py_max (largest_file_size self) file_size;
     fastest_processing_time := py_min (fastest_processing_time self) processing_time |}.

(** [self.stats.errors_count += 1] *)
Definition count_error (self : SystemStats) : SystemStats :=
  {| processed_videos := processed_videos self;
     total_processing_time := total_processing_time self;
     errors_count := errors_count self + 1;
     largest_file_size := largest_file_size self;
     fastest_processing_time := fastest_processing_time self |}.


(** The order of the extended times, [inf] on top. *)
Definition ftime_le (a b : ftime) : Prop :=
  match a, b with
  | _, Inf => True
  | Inf, Finite _ => False
  | Finite x, Finite y => (x <= y)%Qc
  end.

(** ** Messages *)

(** A media payload of an inbound message ([message.video],
    [message.document], an entry of [message.photo]). *)
Record Attachment := mkAttachment {
  file_id : string;
  file_size : Z
}.

(** The inbound [update.message], as far as the handlers read it. *)
Record Message := mkMessage {
  video : option Attachment;
  document : option Attachment;
  photo : list Attachment
}.

(** The texts the bot sends, by the place that sends them. *)
Inductive notice :=
  | Welcome                     (* start_command *)
  | StartFirst                  (* handle_banner, wrong state *)
  | DownloadingBanner
  | BannerProgress (percent : Z)
  | BannerDownloadError
  | BannerReady
  | BannerError
  | SendBannerFirst             (* handle_video, wrong state *)
  | BannerNotFound
  | AlreadyProcessing
  | NoVideoFile
  | TooLarge (size : Z)
  | Started
  | Downloading (percent : Z)   (* smart_progress *)
  | VideoDownloadError
  | Processing
  | TimedOut
  | Ready
  | ProcessingError
  | Unexpected.

(** What leaves the process: calls on the message channel, on the two
    transports and on the clock, and the log lines.  [Failed c] is a call
    that raised. *)
Inductive event :=
  | ReplyText (n : notice)        (* update.message.reply_text *)
  | EditText (n : notice)         (* processing_msg.edit_text *)
  | ReplyDocument (size : Z)      (* update.message.reply_document *)
  | ReplyVideo (size : Z)         (* update.message.reply_video *)
  | DeleteMessage                 (* processing_msg.delete *)
  | Failed (call : event)
  | TempFile (name : string)      (* tempfile.NamedTemporaryFile *)
  | EnterDownload (output_path : string)  (* smart_download is entered *)
  | GetMessages                   (* user_client.get_messages *)
  | DownloadMedia (file_name : string)    (* user_client.download_media *)
  | Sleep (seconds : Z)           (* asyncio.sleep *)
  | GetFile (id : string)         (* bot.get_file *)
  | DownloadToDrive (path : string)       (* file_obj.download_to_drive *)
  | RunFfmpeg (input_video input_banner output_video : string)
  | ReadFile (path : string)      (* aiofiles.open(...).read() *)
  | LogLine.                      (* logger.warning / logger.error *)

(** The exceptions of the model. *)
Inductive exn :=
  | FloodWait (value : Z)       (* pyrogram.errors.FloodWait *)
  | TimeoutError                (* asyncio.TimeoutError *)
  | TelegramError               (* a message-channel call failed *)
  | OSError
  | KeyError
  | OtherError.

Inductive result (A : Type) := Ok (a : A) | Raise (e : exn).
Arguments Ok {A} a.
Arguments Raise {A} e.

(** The bot object and what it acts on.  [video_path] and [output_path]
    are the two locals of [handle_video] that its [finally] block reads. *)
Record World := mkWorld {
  stats : SystemStats;
  user_states : gmap Z BotState;
  user_banners : gmap Z string;
  processing_users : gmap Z bool;
  user_client : bool;             (* is [self.user_client] set? *)
  files : gmap string Z;          (* path -> size in bytes *)
  trace : list event;
  video_path : option string;
  output_path : option string
}.

Definition set_stats (f : SystemStats -> SystemStats) (w : World) : World :=
  mkWorld (f (stats w)) (user_states w) (user_banners w) (processing_users w)
          (user_client w) (files w) (trace w) (video_path w) (output_path w).
Definition set_user_states (f : gmap Z BotState -> gmap Z BotState) (w : World) : World :=
  mkWorld (stats w) (f (user_states w)) (user_banners w) (processing_users w)
          (user_client w) (files w) (trace w) (video_path w) (output_path w).
Definition set_user_banners (f : gmap Z string -> gmap Z string) (w : World) : World :=
  mkWorld (stats w) (user_states w) (f (user_banners w)) (processing_users w)
          (user_client w) (files w) (trace w) (video_path w) (output_path w).
Definition set_processing_users (f : gmap Z bool -> gmap Z bool) (w : World) : World :=
  mkWorld (stats w) (user_states w) (user_banners w) (f (processing_users w))
          (user_client w) (files w) (trace w) (video_path w) (output_path w).
Definition set_files (f : gmap string Z -> gmap string Z) (w : World) : World :=
  mkWorld (stats w) (user_states w) (user_banners w) (processing_users w)
          (user_client w) (f (files w)) (trace w) (video_path w) (output_path w).
Definition emit (e : event) (w : World) : World :=
  mkWorld (stats w) (user_states w) (user_banners w) (processing_users w)
          (user_client w) (files w) (trace w ++ [e]) (video_path w) (output_path w).
Definition set_video_path (p : option string) (w : World) : World :=
  mkWorld (stats w) (user_states w) (user_banners w) (processing_users w)
          (user_client w) (files w) (trace w) p (output_path w).
Definition set_output_path (p : option string) (w : World) : World :=
  mkWorld (stats w) (user_states w) (user_banners w) (processing_users w)
          (user_client w) (files w) (trace w) (video_path w) p.

(** [VideoLogoBotPro.__init__], on a given file system. *)
Definition bot_init (client : bool) (fs : gmap string Z) : World :=
  mkWorld stats_init ∅ ∅ ∅ client fs [] None None.

(** ** The collaborators *)

(** What [subprocess.run] does in [run_ffmpeg_ultra_fast]. *)
Inductive proc_outcome :=
  | Exited (returncode : Z) (stderr : string)
  | TimeoutExpired
  | ProcError (msg : string).

(** One environment fixes the behaviour of every collaborator during one
    handler call.  A call on the message channel or on [tempfile] is
    identified by the length of the trace when it is made. *)
Record Env := mkEnv {
  MAX_FILE_SIZE : Z;                      (* config.MAX_FILE_SIZE *)
  chan_raises : nat -> bool;              (* the channel call raises *)
  temp_name : nat -> option string;       (* None: NamedTemporaryFile raises *)
  unlink_raises : string -> bool;         (* os.unlink raises on this path *)
  (* primary transport, the pyrogram user client *)
  get_messages_result : result bool;      (* is the resolved message truthy? *)
  media_progress : list (Z * Z);          (* the (current, total) reports *)
  media_effect : gmap string Z -> gmap string Z;
  download_media_result : result bool;    (* is the returned path truthy? *)
  (* secondary transport, the bot API *)
  get_file_raises : bool;
  drive_effect : gmap string Z -> gmap string Z;
  download_to_drive_raises : bool;
  (* transcoder *)
  ffmpeg_effect : gmap string Z -> gmap string Z;
  ffmpeg_outcome : proc_outcome;
  wait_for_expires : bool;                (* the 300 s of asyncio.wait_for pass *)
  read_raises : bool;                     (* reading the output back raises *)
  total_time : Qc                         (* time.time() - start_time at the end *)
}.

(* ===================================================================== *)
(** * The effect monad: a world, a value or an exception *)
(* ===================================================================== *)

Definition M (A : Type) : Type := World -> result A * World.

Definition ret {A} (a : A) : M A := fun w => (Ok a, w).

Definition bind {A B} (m : M A) (k : A -> M B) : M B :=
  fun w => match m w with
           | (Ok a, w') => k a w'
           | (Raise e, w') => (Raise e, w')
           end.

Definition raise {A} (e : exn) : M A := fun w => (Raise e, w).

Definition gets {A} (f : World -> A) : M A := fun w => (Ok (f w), w).

Definition modify (f : World -> World) : M unit := fun w => (Ok tt, f w).

(** [try: body / except Exception as e: handler e] *)
Definition try_except {A} (body : M A) (handler : exn -> M A) : M A :=
  fun w => match body w with
           | (Ok a, w') => (Ok a, w')
           | (Raise e, w') => handler e w'
           end.

(** [try: body / finally: final]; an exception of [final] replaces the
    outcome of [body]. *)
Definition try_finally {A} (body : M A) (final : M unit) : M A :=
  fun w => match body w with
           | (r, w') => match final w' with
                        | (Ok _, w'') => (r, w'')
                        | (Raise e, w'') => (Raise e, w'')
                        end
           end.

Declare Scope m_scope.
Delimit Scope m_scope with M.
Notation "x <- m ;; k" := (bind m (fun x => k))
  (at level 100, m at next level, right associativity) : m_scope.
Notation "m ;;; k" := (bind m (fun _ => k))
  (at level 100, right associativity) : m_scope.
Open Scope m_scope.

(** The world a computation ends in, and what it returns. *)
Definition exec {A} (m : M A) (w : World) : World := snd (m w).
Definition outcome {A} (m : M A) (w : World) : result A := fst (m w).

(* ===================================================================== *)
(** * The operations of [VideoLogoBotPro] *)
(* ===================================================================== *)

(** A truthy [str]. *)
Definition truthy (s : string) : bool := bool_decide (s ≠ EmptyString).

(** [int(x)] on a float: truncation towards zero. *)
Definition py_int (x : Qc) : Z := Z.quot (Qnum x) (Zpos (Qden x)).

(** [(current / total) * 100] *)
Definition percent (current total : Z) : Qc :=
  (Q2Qc (inject_Z current) / Q2Qc (inject_Z total) * Q2Qc (inject_Z 100))%Qc.

(** [for x in l: f x] *)
Fixpoint for_each {A} (l : list A) (f : A -> M unit) : M unit :=
  match l with
  | [] => ret tt
  | x :: rest => f x ;;; for_each rest f
  end.

(** [os.path.exists(p) and os.path.getsize(p) > 0] *)
Definition exists_nonempty (p : string) : M bool :=
  gets (fun w => match files w !! p with
                 | Some size => 0 <? size
                 | None => false
                 end).

(** [os.path.getsize(p)] *)
Definition getsize (p : string) : M Z :=
  fun w => match files w !! p with
           | Some size => (Ok size, w)
           | None => (Raise OSError, w)
           end.

(** [getattr(message, 'video', None) or getattr(message, 'document', None)] *)
Definition video_payload (message : Message) : option Attachment :=
  match video message with
  | Some v => Some v
  | None => document message
  end.

Section Bot.

Variable env : Env.

(** ** Collaborator calls *)

(** One call on the message channel. *)
Definition channel (call : event) : M unit :=
  fun w => if chan_raises env (length (trace w))
           then (Raise TelegramError, emit (Failed call) w)
           else (Ok tt, emit call w).

(** [update.message.reply_text(...)] and [processing_msg.edit_text(...)] *)
Definition reply_text (n : notice) : M unit := channel (ReplyText n).
Definition edit_text (n : notice) : M unit := channel (EditText n).

(** [logger.warning(...)], [logger.error(...)] *)
Definition log_line : M unit := modify (emit LogLine).

(** [tempfile.NamedTemporaryFile(suffix=..., delete=False, dir=...)],
    [.name], [.close()]: a new empty file. *)
Definition NamedTemporaryFile : M string :=
  fun w => match temp_name env (length (trace w)) with
           | Some name => (Ok name, emit (TempFile name) (set_files (insert name 0) w))
           | None => (Raise OSError, emit (Failed (TempFile EmptyString)) w)
           end.

(** [os.unlink(p)] *)
Definition unlink (p : string) : M unit :=
  fun w => if unlink_raises env p then (Raise OSError, w)
           else (Ok tt, set_files (delete p) w).

(** [self.user_client.get_messages(chat_id, message_id)] *)
Definition get_messages : M bool :=
  modify (emit GetMessages) ;;;
  match get_messages_result env with
  | Ok b => ret b
  | Raise e => raise e
  end.

(** [self.user_client.download_media(user_message, file_name=...,
    progress=...)] *)
Definition download_media (file_name : string) (progress : Z -> Z -> M unit) : M bool :=
  modify (emit (DownloadMedia file_name)) ;;;
  for_each (media_progress env) (fun '(current, total) => progress current total) ;;;
  modify (set_files (media_effect env)) ;;;
  match download_media_result env with
  | Ok b => ret b
  | Raise e => raise e
  end.

(** [bot.get_file(file_id)] *)
Definition get_file (id : string) : M unit :=
  modify (emit (GetFile id)) ;;;
  if get_file_raises env then raise TelegramError else ret tt.

(** [file_obj.download_to_drive(output_path)] *)
Definition download_to_drive (path : string) : M unit :=
  modify (emit (DownloadToDrive path)) ;;;
  modify (set_files (drive_effect env)) ;;;
  if download_to_drive_raises env then raise TelegramError else ret tt.

(** [asyncio.sleep(seconds)] *)
Definition sleep (seconds : Z) : M unit := modify (emit (Sleep seconds)).

(** [asyncio.wait_for(..., timeout=300)] around a task that runs on the
    executor: when the deadline passes the caller sees [TimeoutError],
    whatever the task has done by then. *)
Definition wait_for {A} (task : M A) : M A :=
  fun w => if wait_for_expires env then (Raise TimeoutError, exec task w)
           else task w.

(** ** Resource tracker *)

(** [cleanup_temp_files], over its variadic [file_paths]. *)
Fixpoint cleanup_temp_files (file_paths : list (option string)) : M unit :=
  match file_paths with
  | [] => ret tt
  | file_path :: rest =>
      (match file_path with
       | Some p =>
           present <- gets (fun w => bool_decide (is_Some (files w !! p))) ;;
           if truthy p && present
           then try_except (unlink p) (fun _ => log_line)
           else ret tt
       | None => ret tt
       end) ;;;
      cleanup_temp_files rest
  end.

(** ** Transport fallback downloader *)

(** The nested [download_progress(current, total)]. *)
Definition download_progress (progress_callback : option (Qc -> M unit))
    (current total : Z) : M unit :=
  match progress_callback with
  | Some callback => if 0 <? total then callback (percent current total) else ret tt
  | None => ret tt
  end.

(** [_download_with_user_client] *)
Definition _download_with_user_client (message : Message) (output_path : string)
    (progress_callback : option (Qc -> M unit)) : M bool :=
  try_except
    (client <- gets user_client ;;
     if negb client then ret false else
     user_message <- get_messages ;;
     if negb user_message then ret false else
     downloaded_file <- download_media output_path (download_progress progress_callback) ;;
     present <- exists_nonempty output_path ;;
     ret (downloaded_file && present))
    (fun e => match e with
              | FloodWait value => log_line ;;; sleep value ;;; ret false
              | _ => log_line ;;; ret false
              end).

(** The [file_id] picked by [_download_with_bot_api]: video, else
    document, else the last photo size. *)
Definition select_file_id (message : Message) : option string :=
  match video message with
  | Some v => Some (file_id v)
  | None =>
      match document message with
      | Some d => Some (file_id d)
      | None =>
          match last (photo message) with
          | Some p => Some (file_id p)
          | None => None
          end
      end
  end.

(** [_download_with_bot_api] *)
Definition _download_with_bot_api (message : Message) (output_path : string)
    (progress_callback : option (Qc -> M unit)) : M bool :=
  try_except
    (match select_file_id message with
     | None => ret false
     | Some id =>
         if negb (truthy id) then ret false else
         get_file id ;;;
         download_to_drive output_path ;;;
         (match progress_callback with
          | Some callback => callback (Q2Qc (inject_Z 100))
          | None => ret tt
          end) ;;;
         exists_nonempty output_path
     end)
    (fun _ => log_line ;;; ret false).

(** [smart_download] *)
Definition smart_download (message : Message) (output_path : string)
    (progress_callback : option (Qc -> M unit)) : M bool :=
  modify (emit (EnterDownload output_path)) ;;;
  try_except
    (client <- gets user_client ;;
     primary <- (if client
                 then _download_with_user_client message output_path progress_callback
                 else ret false) ;;
     if primary then ret true
     else _download_with_bot_api message output_path progress_callback)
    (fun _ => log_line ;;; ret false).

(** ** Transcode invoker *)

(** [run_ffmpeg_ultra_fast]; the command line is fixed, the diagnostic of
    the inner timeout is abridged. *)
Definition run_ffmpeg_ultra_fast (input_video input_banner output_video : string)
    : M (bool * string) :=
  modify (emit (RunFfmpeg input_video input_banner output_video)) ;;;
  modify (set_files (ffmpeg_effect env)) ;;;
  ret (match ffmpeg_outcome env with
       | Exited returncode stderr => (returncode =? 0, stderr)
       | TimeoutExpired => (false, "Processing timeout")
       | ProcError msg => (false, msg)
       end).

(** ** Session state machine and job coordinator *)

(** [start_command] *)
Definition start_command (user_id : Z) : M unit :=
  modify (set_user_states (insert user_id IDLE)) ;;;
  banner <- gets (fun w => user_banners w !! user_id) ;;
  (match banner with
   | Some p =>
       cleanup_temp_files [Some p] ;;;
       modify (set_user_banners (delete user_id))
   | None => ret tt
   end) ;;;
  reply_text Welcome ;;;
  modify (set_user_states (insert user_id WAITING_BANNER)).

(** The nested [progress_callback(progress)] of [handle_banner]. *)
Definition progress_callback (progress : Qc) : M unit :=
  if decide (py_int progress `mod` 25 = 0)
  then try_except (edit_text (BannerProgress (py_int progress))) (fun _ => ret tt)
  else ret tt.

(** [handle_banner] *)
Definition handle_banner (user_id : Z) (message : Message) : M unit :=
  state <- gets (fun w => user_states w !! user_id) ;;
  if decide (state ≠ Some WAITING_BANNER) then reply_text StartFirst else
  try_except
    (reply_text DownloadingBanner ;;;
     banner_path <- NamedTemporaryFile ;;
     success <- smart_download message banner_path (Some progress_callback) ;;
     if negb success then
       edit_text BannerDownloadError ;;;
       cleanup_temp_files [Some banner_path]
     else
       modify (set_user_banners (insert user_id banner_path)) ;;;
       banner_size <- getsize banner_path ;;
       edit_text BannerReady ;;;
       modify (set_user_states (insert user_id WAITING_VIDEO)))
    (fun _ =>
       log_line ;;;
       reply_text BannerError ;;;
       modify (set_stats count_error)).

(** The nested [smart_progress(progress)] of [handle_video]. *)
Definition smart_progress (progress : Qc) : M unit :=
  try_except (edit_text (Downloading (py_int progress))) (fun _ => ret tt).

(** [if output_size > 50 * 1024 * 1024: reply_document(...) else:
    reply_video(...)] *)
Definition send_result (output_size : Z) : M unit :=
  if decide (output_size > 50 * 1024 * 1024)
  then channel (ReplyDocument output_size)
  else channel (ReplyVideo output_size).

(** The three checks that open [handle_video]: the rejection to send, or
    [None] when the video is taken. *)
Definition video_rejection (user_id : Z) (w : World) : option notice :=
  if decide (user_states w !! user_id ≠ Some WAITING_VIDEO) then Some SendBannerFirst
  else if decide (user_banners w !! user_id = None) then Some BannerNotFound
  else if decide (processing_users w !! user_id ≠ None) then Some AlreadyProcessing
  else None.

(** [self.processing_users[user_id] = True],
    [self.user_states[user_id] = BotState.PROCESSING],
    [video_path = None], [output_path = None] *)
Definition start_job (user_id : Z) (w : World) : World :=
  set_output_path None
    (set_video_path None
       (set_user_states (insert user_id PROCESSING)
          (set_processing_users (insert user_id true) w))).

(** The [try] block of [handle_video]. *)
Definition job_body (user_id : Z) (message : Message) : M unit :=
  match video_payload message with
  | None => reply_text NoVideoFile
  | Some payload =>
      let file_size := file_size payload in
      if decide (file_size > MAX_FILE_SIZE env) then reply_text (TooLarge file_size) else
      reply_text Started ;;;
      video_temp <- NamedTemporaryFile ;;
      modify (set_video_path (Some video_temp)) ;;;
      output_temp <- NamedTemporaryFile ;;
      modify (set_output_path (Some output_temp)) ;;;
      success <- smart_download message video_temp (Some smart_progress) ;;
      if negb success then edit_text VideoDownloadError else
      stored <- gets (fun w => user_banners w !! user_id) ;;
      banner_path <- (match stored with Some p => ret p | None => raise KeyError end) ;;
      edit_text Processing ;;;
      transcoded <- try_except
        (r <- wait_for (run_ffmpeg_ultra_fast video_temp banner_path output_temp) ;;
         ret (Some r))
        (fun e => match e with
                  | TimeoutError => edit_text TimedOut ;;; ret None
                  | _ => raise e
                  end) ;;
      match transcoded with
      | None => ret tt
      | Some (success, error_msg) =>
          present <- exists_nonempty output_temp ;;
          if success && present then
            output_size <- getsize output_temp ;;
            modify (set_stats (update_processing_stats (total_time env) file_size)) ;;;
            edit_text Ready ;;;
            modify (emit (ReadFile output_temp)) ;;;
            (if read_raises env then raise OSError else ret tt) ;;;
            send_result output_size ;;;
            channel DeleteMessage ;;;
            modify (set_user_states (insert user_id IDLE))
          else
            edit_text ProcessingError ;;;
            modify (set_stats count_error)
      end
  end.

(** The [except Exception] block of [handle_video]. *)
Definition job_except (e : exn) : M unit :=
  log_line ;;;
  reply_text Unexpected ;;;
  modify (set_stats count_error).

(** The [finally] block of [handle_video]. *)
Definition job_finally (user_id : Z) : M unit :=
  video_path <- gets video_path ;;
  output_path <- gets output_path ;;
  cleanup_temp_files [video_path; output_path] ;;;
  banner <- gets (fun w => user_banners w !! user_id) ;;
  (match banner with
   | Some p =>
       cleanup_temp_files [Some p] ;;;
       modify (set_user_banners (delete user_id))
   | None => ret tt
   end) ;;;
  busy <- gets (fun w => processing_users w !! user_id) ;;
  match busy with
  | Some _ => modify (set_processing_users (delete user_id))
  | None => ret tt
  end.

(** [try: ... except Exception as e: ... finally: ...] of [handle_video],
    entered once the video is taken. *)
Definition run_job (user_id : Z) (message : Message) : M unit :=
  try_finally (try_except (job_body user_id message) job_except)
              (job_finally user_id).

(** [handle_video] *)
Definition handle_video (user_id : Z) (message : Message) : M unit :=
  fun w => match video_rejection user_id w with
           | Some n => reply_text n w
           | None => run_job user_id message (start_job user_id w)
           end.

End Bot.

(* ===================================================================== *)
(** * Configuration ([config.py]) *)
(* ===================================================================== *)

Module Config.

(** [class BotConfig], its attributes. *)
Record BotConfig := mkBotConfig {
  BOT_TOKEN : string;
  OWNER_ID : option Z;
  USE_USER_CLIENT : bool;
  API_ID : option Z;
  API_HASH : string;
  PHONE_NUMBER : string;
  SESSION_NAME : string;
  MAX_FILE_SIZE : option Z;
  TEMP_DIR : string;
  MAX_WORKERS : option Z;
  PROCESSING_TIMEOUT : option Z;
  FFMPEG_PRESET : string;
  FFMPEG_CRF : option Z;
  FFMPEG_MAXRATE : string;
  LOG_LEVEL : string;
  LOG_FILE : string
}.

(** How [BotConfig()] ends: with the object, with the [ValueError] of a
    missing token, or with the error of a [mkdir]. *)
Inductive init_result :=
  | Built (config : BotConfig)
  | RaisedValueError
  | RaisedOSError.

(** A truthy [Optional[int]]: not [None] and not 0. *)
Definition truthy_int (n : option Z) : bool :=
  match n with
  | Some k => negb (k =? 0)
  | None => false
  end.

(** [all([self.API_ID, self.API_HASH, self.PHONE_NUMBER])] *)
Definition all_credentials (api_id : option Z) (api_hash phone_number : string) : bool :=
  truthy_int api_id && truthy api_hash && truthy phone_number.

Section Environment.

(** The process environment, and the library functions the module
    calls: [int(value)] ([None] for a [ValueError]), [str.lower],
    [os.path.dirname], and whether [Path(p).mkdir(exist_ok=True)]
    raises. *)
Variable environ : gmap string string.
Variable int : string -> option Z.
Variable lower : string -> string.
Variable dirname : string -> string.
Variable mkdir_raises : string -> bool.

(** [os.getenv(key, default)] *)
Definition getenv (key default : string) : string :=
  match environ !! key with
  | Some value => value
  | None => default
  end.

(** [BotConfig._get_int_env] *)
Definition _get_int_env (key : string) (default : option Z) : option Z :=
  match environ !! key with
  | None => default
  | Some value =>
      match int value with
      | Some n => Some n
      | None => default
      end
  end.

(** The assignments of [BotConfig.__init__], before validation. *)
Definition read_environment : BotConfig :=
  {| BOT_TOKEN := getenv "BOT_TOKEN" EmptyString;
     OWNER_ID := _get_int_env "OWNER_ID" None;
     USE_USER_CLIENT := bool_decide (lower (getenv "USE_USER_CLIENT" "true") = "true");
     API_ID := _get_int_env "API_ID" None;
     API_HASH := getenv "API_HASH" EmptyString;
     PHONE_NUMBER := getenv "PHONE_NUMBER" EmptyString;
     SESSION_NAME := getenv "SESSION_NAME" "video_bot_session";
     MAX_FILE_SIZE := _get_int_env "MAX_FILE_SIZE" (Some (2 * 1024 * 1024 * 1024));
     TEMP_DIR := getenv "TEMP_DIR" "temp";
     MAX_WORKERS := _get_int_env "MAX_WORKERS" (Some 4);
     PROCESSING_TIMEOUT := _get_int_env "PROCESSING_TIMEOUT" (Some 600);
     FFMPEG_PRESET := getenv "FFMPEG_PRESET" "ultrafast";
     FFMPEG_CRF := _get_int_env "FFMPEG_CRF" (Some 23);
     FFMPEG_MAXRATE := getenv "FFMPEG_MAXRATE" "200M";
     LOG_LEVEL := getenv "LOG_LEVEL" "INFO";
     LOG_FILE := getenv "LOG_FILE" "logs/bot.log" |}.

(** [self.USE_USER_CLIENT = False] *)
Definition disable_user_client (self : BotConfig) : BotConfig :=
  mkBotConfig (BOT_TOKEN self) (OWNER_ID self) false (API_ID self) (API_HASH self)
    (PHONE_NUMBER self) (SESSION_NAME self) (MAX_FILE_SIZE self) (TEMP_DIR self)
    (MAX_WORKERS self) (PROCESSING_TIMEOUT self) (FFMPEG_PRESET self) (FFMPEG_CRF self)
    (FFMPEG_MAXRATE self) (LOG_LEVEL self) (LOG_FILE self).

(** [BotConfig._validate_config] *)
Definition _validate_config (self : BotConfig) : init_result :=
  if negb (truthy (BOT_TOKEN self)) then RaisedValueError else
  let self :=
    if USE_USER_CLIENT self
    then if negb (all_credentials (API_ID self) (API_HASH self) (PHONE_NUMBER self))
         then disable_user_client self
         else self
    else self in
  if mkdir_raises (TEMP_DIR self) then RaisedOSError else
  if mkdir_raises (dirname (LOG_FILE self)) then RaisedOSError else
  Built self.

(** [BotConfig.__init__] *)
Definition init : init_result := _validate_config read_environment.

End Environment.

End Config.

(* ===================================================================== *)
(** * The other handlers of [VideoLogoBotPro] *)
(* ===================================================================== *)

(** [self.user_client = Client(...)] *)
Definition set_user_client (client : bool) (w : World) : World :=
  mkWorld (stats w) (user_states w) (user_banners w) (processing_users w)
          client (files w) (trace w) (video_path w) (output_path w).

(** [initialize_user_client], given the configuration, whether the
    constructor of [Client] raises, and how [user_client.start()] ends. *)
Definition initialize_user_client (config : Config.BotConfig)
    (constructor_raises : bool) (started : result unit) : M bool :=
  try_except
    (if negb (Config.all_credentials (Config.API_ID config) (Config.API_HASH config)
                (Config.PHONE_NUMBER config))
     then log_line ;;; ret false
     else
       (if constructor_raises then raise OtherError
        else modify (set_user_client true)) ;;;
       (match started with
        | Ok _ => ret tt
        | Raise e => raise e
        end) ;;;
       log_line ;;;
       ret true)
    (fun _ => log_line ;;; ret false).

(** The attributes of a document that [_is_supported_image] and
    [_is_supported_video] read; [None] when the attribute is absent or
    [None]. *)
Record FileObj := mkFileObj {
  mime_type : option string;
  file_name : option string
}.

(** [self.SUPPORTED_VIDEO_FORMATS] and [self.SUPPORTED_IMAGE_FORMATS] *)
Definition SUPPORTED_VIDEO_FORMATS : list string :=
  [ "video/mp4"; "video/quicktime"; "video/x-msvideo"; "video/x-matroska";
    "video/webm"; "video/x-flv"; "video/x-ms-wmv"; "video/mpeg";
    "video/mp4v-es"; "video/3gpp"; "application/octet-stream" ].
Definition SUPPORTED_IMAGE_FORMATS : list string :=
  [ "image/jpeg"; "image/png"; "image/webp"; "image/gif";
    "image/bmp"; "image/tiff"; "image/svg+xml"; "image/heic" ].

(** The extension lists of the two checks. *)
Definition image_extensions : list string :=
  [ "jpg"; "jpeg"; "png"; "webp"; "gif"; "bmp"; "tiff"; "svg"; "heic" ].
Definition video_extensions : list string :=
  [ "mp4"; "mov"; "mkv"; "avi"; "webm"; "flv"; "wmv"; "mpeg"; "m4v"; "3gp" ].

(** [s.split('.')] *)
Fixpoint split_dot (s : string) : list string :=
  match s with
  | EmptyString => [EmptyString]
  | String c rest =>
      if Ascii.eqb c "."%char then EmptyString :: split_dot rest
      else match split_dot rest with
           | head :: tail => String c head :: tail
           | [] => [String c EmptyString]
           end
  end.

(** An attribute that is present and truthy. *)
Definition present (attribute : option string) : option string :=
  match attribute with
  | Some s => if truthy s then Some s else None
  | None => None
  end.

Section Formats.

(** [str.lower] *)
Variable lower : string -> string.

(** [file_obj.file_name.lower().split('.')[-1]] *)
Definition extension (name : string) : string :=
  match last (split_dot (lower name)) with
  | Some ext => ext
  | None => EmptyString
  end.

(** [_is_supported_image] *)
Definition _is_supported_image (file_obj : FileObj) : bool :=
  match present (mime_type file_obj) with
  | Some mime => bool_decide (mime ∈ SUPPORTED_IMAGE_FORMATS)
  | None =>
      match present (file_name file_obj) with
      | Some name => bool_decide (extension name ∈ image_extensions)
      | None => true
      end
  end.

(** [_is_supported_video] *)
Definition _is_supported_video (file_obj : FileObj) : bool :=
  match present (mime_type file_obj) with
  | Some mime => bool_decide (mime ∈ SUPPORTED_VIDEO_FORMATS)
  | None =>
      match present (file_name file_obj) with
      | Some name => bool_decide (extension name ∈ video_extensions)
      | None => true
      end
  end.

End Formats.

(** The texts that only the handlers below send, and the event that
    stands for [query.answer()]; the trace records them as they are given
    here. *)
Record Calls := mkCalls {
  banner_needed : notice;       (* handle_wrong_content, WAITING_BANNER *)
  video_needed : notice;        (* handle_wrong_content, WAITING_VIDEO *)
  unknown_state : notice;       (* handle_wrong_content, otherwise *)
  answer : event;               (* query.answer() *)
  banner_prompt : notice;       (* query.edit_message_text, send_banner *)
  stats_text : notice;          (* _show_stats *)
  help_text : notice;           (* _show_help *)
  settings_text : notice;       (* _show_settings *)
  system_error : notice         (* error_handler *)
}.

Section Handlers.

Variable env : Env.
Variable lower : string -> string.
Variable calls : Calls.

(** [handle_wrong_content] *)
Definition handle_wrong_content (user_id : Z) : M unit :=
  current_state <- gets (fun w => match user_states w !! user_id with
                                  | Some state => state
                                  | None => IDLE
                                  end) ;;
  match current_state with
  | WAITING_BANNER => reply_text env (banner_needed calls)
  | WAITING_VIDEO => reply_text env (video_needed calls)
  | _ => reply_text env (unknown_state calls)
  end.

(** [handle_document]; [meta] holds the MIME type and the file name of
    [update.message.document]. *)
Definition handle_document (user_id : Z) (message : Message) (meta : FileObj) : M unit :=
  match document message with
  | None => handle_wrong_content user_id
  | Some _ =>
      state <- gets (fun w => user_states w !! user_id) ;;
      if bool_decide (state = Some WAITING_VIDEO) && _is_supported_video lower meta
      then handle_video env user_id message
      else if bool_decide (state = Some WAITING_BANNER) && _is_supported_image lower meta
      then handle_banner env user_id message
      else handle_wrong_content user_id
  end.

(** [button_callback], with [data] the [query.data]; the three
    [_show_...] helpers edit the message of the query.  Building their
    texts (the readings of [psutil] and of the statistics in
    [_show_stats]) is taken to return. *)
Definition button_callback (user_id : Z) (data : string) : M unit :=
  channel env (answer calls) ;;;
  if bool_decide (data = "send_banner") then
    modify (set_user_states (insert user_id WAITING_BANNER)) ;;;
    edit_text env (banner_prompt calls)
  else if bool_decide (data = "stats") then edit_text env (stats_text calls)
  else if bool_decide (data = "help") then edit_text env (help_text calls)
  else if bool_decide (data = "settings") then edit_text env (settings_text calls)
  else ret tt.

(** [error_handler]; [has_message] is
    [update and update.effective_message]. *)
Definition error_handler (has_message : bool) : M unit :=
  log_line ;;;
  (if has_message
   then try_except (reply_text env (system_error calls)) (fun _ => ret tt)
   else ret tt) ;;;
  modify (set_stats count_error).

End Handlers.

(* ===================================================================== *)
(** * Concrete collaborators and messages *)
(* ===================================================================== *)

(** An environment, given the names of the temporary files, the channel
    calls that raise, the behaviour of the primary transport, what the
    transports and the transcoder write, and how the transcoder ends. *)
Definition make_env (names : nat -> option string) (raises : nat -> bool)
    (resolved : result bool) (progress : list (Z * Z)) (fetched : result bool)
    (get_file_fails : bool) (written : gmap string Z -> gmap string Z)
    (transcoded : gmap string Z -> gmap string Z) (ended : proc_outcome)
    (expires : bool) : Env :=
  {| MAX_FILE_SIZE := 2 * 1024 * 1024 * 1024;
     chan_raises := raises;
     temp_name := names;
     unlink_raises := fun _ => false;
     get_messages_result := resolved;
     media_progress := progress;
     media_effect := written;
     download_media_result := fetched;
     get_file_raises := get_file_fails;
     drive_effect := written;
     download_to_drive_raises := false;
     ffmpeg_effect := transcoded;
     ffmpeg_outcome := ended;
     wait_for_expires := expires;
     read_raises := false;
     total_time := Q2Qc (inject_Z 12) |}.

(** No channel call raises; only the call at trace length [k] does. *)
Definition never : nat -> bool := fun _ => false.
Definition only_at (k : nat) : nat -> bool := fun n => Nat.eqb n k.

(** The temporary files of one [handle_video] call on a world with an
    empty trace: the input video is created second, the output third. *)
Definition job_names (n : nat) : option string :=
  Some (if Nat.odd n then "temp/video.mp4" else "temp/output.mp4").

(** The temporary file of a banner. *)
Definition banner_names (n : nat) : option string := Some "temp/banner.jpg".

(** Only the secondary transport acts, and writes [written]. *)
Definition drive_env (written : gmap string Z -> gmap string Z) : Env :=
  make_env job_names never (Ok true) [] (Ok true) false written id (Exited 0 "ok") false.

(** A 1000-byte video. *)
Definition video_message : Message :=
  {| video := Some {| file_id := "vid-1"; file_size := 1000 |};
     document := None;
     photo := [] |}.


(** A banner photo in two sizes. *)
Definition photo_message : Message :=
  {| video := None;
     document := None;
     photo := [ {| file_id := "ph-small"; file_size := 100 |};
                {| file_id := "ph-large"; file_size := 2048 |} ] |}.

(** User 7 has sent a banner and is expected to send the video. *)
Definition ready : World :=
  mkWorld stats_init (<[7 := WAITING_VIDEO]> ∅) (<[7 := "temp/banner.jpg"]> ∅) ∅ false
          (<["temp/banner.jpg" := 2048]> ∅) [] None None.

(** The same with the user client configured. *)
Definition ready_client : World :=
  mkWorld stats_init (<[7 := WAITING_VIDEO]> ∅) (<[7 := "temp/banner.jpg"]> ∅) ∅ true
          (<["temp/banner.jpg" := 2048]> ∅) [] None None.

(** User 7 has issued /start. *)
Definition waiting_banner : World :=
  mkWorld stats_init (<[7 := WAITING_BANNER]> ∅) ∅ ∅ false ∅ [] None None.

(** The job environments: the video arrives as 1000 bytes over the
    secondary transport and the transcoder writes [size] bytes. *)
Definition success_env (size : Z) : Env :=
  make_env job_names never (Ok true) [] (Ok true) false
           (insert "temp/video.mp4" 1000) (insert "temp/output.mp4" size)
           (Exited 0 "ok") false.

(** [bot.get_file] raises: the download fails. *)
Definition download_fails_env : Env :=
  make_env job_names never (Ok true) [] (Ok true) true id id (Exited 0 "ok") false.

(** The 300 s of [asyncio.wait_for] pass. *)
Definition timeout_env : Env :=
  make_env job_names never (Ok true) [] (Ok true) false
           (insert "temp/video.mp4" 1000) id (Exited 0 "ok") true.

(** The transcoder exits with status 1. *)
Definition transcode_fails_env : Env :=
  make_env job_names never (Ok true) [] (Ok true) false
           (insert "temp/video.mp4" 1000) id (Exited 1 "Invalid data") false.

(** Editing the progress message to "processing" raises (the call made
    at trace length 7). *)
Definition edit_raises_env : Env :=
  make_env job_names (only_at 7) (Ok true) [] (Ok true) false
           (insert "temp/video.mp4" 1000) (insert "temp/output.mp4" 5000)
           (Exited 0 "ok") false.

(** The primary transport streams the video and reports 1 of 3, 2 of 3
    and 3 of 3 bytes. *)
Definition progress_env : Env :=
  make_env job_names never (Ok true) [(1, 3); (2, 3); (3, 3)] (Ok true) false
           (insert "temp/video.mp4" 1000) (insert "temp/output.mp4" 5000)
           (Exited 0 "ok") false.

(** Banner environments: the download fails; it fails and the notice of
    the failure (the call at trace length 5) raises too; it succeeds. *)
Definition banner_fails_env : Env :=
  make_env banner_names never (Ok true) [] (Ok true) true id id (Exited 0 "ok") false.
Definition banner_fails_notice_raises_env : Env :=
  make_env banner_names (only_at 5) (Ok true) [] (Ok true) true id id (Exited 0 "ok") false.
Definition banner_ok_env : Env :=
  make_env banner_names never (Ok true) [] (Ok true) false
           (insert "temp/banner.jpg" 2048) id (Exited 0 "ok") false.

(** The welcome reply of /start raises. *)
Definition reply_raises_env : Env :=
  make_env banner_names (fun _ => true) (Ok true) [] (Ok true) false id id
           (Exited 0 "ok") false.


(* ===================================================================== *)
(** * Vocabulary of the statements *)
(* ===================================================================== *)

(** [stable R m]: the world [m] ends in is [R]-related to the one it
    starts from. *)
Definition stable (R : World -> World -> Prop) {A} (m : M A) : Prop :=
  forall w, R w (exec m w).

(** [R] is a preorder that admits file writes and the events of [P]. *)
Class Frame (R : World -> World -> Prop) (P : event -> Prop) : Prop := {
  frame_refl : forall w, R w w;
  frame_trans : forall a b c, R a b -> R b c -> R a c;
  frame_emit : forall e w, P e -> R w (emit e w);
  frame_files : forall f w, R w (set_files f w)
}.

(** The events of the two transports. *)
Definition user_client_event (e : event) : bool :=
  match e with GetMessages | DownloadMedia _ | Sleep _ | LogLine => true | _ => false end.
Definition bot_api_event (e : event) : bool :=
  match e with GetFile _ | DownloadToDrive _ | LogLine => true | _ => false end.

(** A progress sink that respects [R]. *)
Definition sink_stable (R : World -> World -> Prop) (sink : option (Qc -> M unit)) : Prop :=
  match sink with
  | Some callback => forall x, stable R (callback x)
  | None => True
  end.

(** Nothing of the bot object changes: only files and the trace may. *)
Definition same_session (w w' : World) : Prop :=
  stats w' = stats w /\ user_states w' = user_states w /\
  user_banners w' = user_banners w /\ processing_users w' = processing_users w /\
  user_client w' = user_client w /\
  video_path w' = video_path w /\ output_path w' = output_path w.

(** The trace grows by events of [P]. *)
Definition extends (P : event -> Prop) (w w' : World) : Prop :=
  exists l, trace w' = trace w ++ l /\ Forall P l.

(** The destination exists and is not empty. *)
Definition nonempty_at (p : string) (w : World) : Prop :=
  exists size, files w !! p = Some size /\ 0 < size.

Definition primary_call (e : event) : bool :=
  match e with GetMessages | DownloadMedia _ => true | _ => false end.
Definition is_sleep (e : event) : bool :=
  match e with Sleep _ => true | _ => false end.
Definition ui_event (e : event) : bool :=
  match e with EditText _ | Failed (EditText _) => true | _ => false end.


(** A progress sink that returns normally and only edits messages. *)
Definition ui_sink (sink : option (Qc -> M unit)) : Prop :=
  match sink with
  | Some callback =>
      forall x w, outcome (callback x) w = Ok tt /\
                  extends (fun e => ui_event e = true) w (exec (callback x) w)
  | None => True
  end.

(** What [cleanup_temp_files] does with one of its arguments. *)
Definition release (env : Env) (file_path : option string) (w : World) : World :=
  match file_path with
  | Some p =>
      if truthy p && bool_decide (is_Some (files w !! p))
      then if unlink_raises env p then emit LogLine w else set_files (delete p) w
      else w
  | None => w
  end.


(** [wp m Q w]: run from [w], the computation [m] ends with a result and
    a world that satisfy [Q]. *)
Definition wp {A} (m : M A) (Q : result A -> World -> Prop) (w : World) : Prop :=
  Q (outcome m w) (exec m w).

(** The postcondition of a first step, given the one of the whole. *)
Definition then_wp {A B} (k : A -> M B) (Q : result B -> World -> Prop)
    (r : result A) (w : World) : Prop :=
  match r with
  | Ok a => wp (k a) Q w
  | Raise e => Q (Raise e) w
  end.

(** The postcondition of the body of a [try], for [except] and for
    [finally]. *)
Definition except_wp {A} (handler : exn -> M A) (Q : result A -> World -> Prop)
    (r : result A) (w : World) : Prop :=
  match r with
  | Ok a => Q (Ok a) w
  | Raise e => wp (handler e) Q w
  end.

Definition finally_wp {A} (final : M unit) (Q : result A -> World -> Prop)
    (r : result A) (w : World) : Prop :=
  wp final (fun r' w' => match r' with Ok _ => Q r w' | Raise e => Q (Raise e) w' end) w.

(** The world in which [handle_banner] calls the downloader: the notice
    is out and the empty temporary file [p] exists. *)
Definition banner_download_start (w : World) (p : string) : World :=
  emit (TempFile p) (set_files (insert p 0) (emit (ReplyText DownloadingBanner) w)).

(** States and banners are as they were. *)
Definition same_states_banners (w w' : World) : Prop :=
  user_states w' = user_states w /\ user_banners w' = user_banners w.

(** What [handle_banner] has done when it returns or raises, from a
    state of WAITING_BANNER: either states and banners are as they were,
    or the download into the temporary file [p] has succeeded and [p] is
    stored as the banner of the user; only then can the state have moved,
    and then to WAITING_VIDEO. *)
Definition banner_handled (env : Env) (user_id : Z) (message : Message)
    (w w' : World) : Prop :=
  same_states_banners w w' \/
  exists p wb,
    chan_raises env (length (trace w)) = false /\
    temp_name env (S (length (trace w))) = Some p /\
    smart_download env message p (Some (progress_callback env)) (banner_download_start w p)
      = (Ok true, wb) /\
    user_banners w' = <[user_id := p]> (user_banners w) /\
    (user_states w' = user_states w \/
     user_states w' = <[user_id := WAITING_VIDEO]> (user_states w)).


(** The downloader is not entered. *)
Definition no_download (e : event) : Prop :=
  match e with EnterDownload _ => False | _ => True end.

(** The events of [w'] that [w] did not have yet. *)
Definition new_events (w w' : World) : list event :=
  drop (length (trace w)) (trace w').

(** User 7 is not busy and has no banner, in the session or on disk, but
    the state is PROCESSING. *)
Definition left_in_processing (w : World) : Prop :=
  user_states w !! 7 = Some PROCESSING /\
  processing_users w !! 7 = None /\
  user_banners w !! 7 = None /\
  files w !! "temp/banner.jpg" = None.


(** [handle_video] has entered the downloader. *)
Definition download_begun (w w' : World) : Prop :=
  exists p, EnterDownload p ∈ new_events w w'.

(** The state of the user is as it was, or it has been set to IDLE after
    the progress message was deleted. *)
Definition reset_after_delete (user_id : Z) (w w' : World) : Prop :=
  exists l, trace w' = trace w ++ l /\
    (user_states w' = user_states w \/
     (user_states w' = <[user_id := IDLE]> (user_states w) /\ DeleteMessage ∈ l)).

(** The notices after which the error counter is raised. *)
Definition counted_notice (e : event) : Prop :=
  e = EditText ProcessingError \/ e = ReplyText Unexpected.

(** The error counter is as it was, unless one of these notices went
    out. *)
Definition counted_after_notice (w w' : World) : Prop :=
  exists l, trace w' = trace w ++ l /\
    (errors_count (stats w') = errors_count (stats w) \/ Exists counted_notice l).

(** ** Further vocabulary *)

(** A call on the secondary transport. *)
Definition secondary_call (e : event) : bool :=
  match e with GetFile _ | DownloadToDrive _ => true | _ => false end.

(** [os.unlink] raises on ["b"] only. *)
Definition stubborn_env : Env :=
  {| MAX_FILE_SIZE := 2 * 1024 * 1024 * 1024;
     chan_raises := never;
     temp_name := job_names;
     unlink_raises := fun p => bool_decide (p = "b");
     get_messages_result := Ok true;
     media_progress := [];
     media_effect := id;
     download_media_result := Ok true;
     get_file_raises := false;
     drive_effect := id;
     download_to_drive_raises := false;
     ffmpeg_effect := id;
     ffmpeg_outcome := Exited 0 "ok";
     wait_for_expires := false;
     read_raises := false;
     total_time := Q2Qc (inject_Z 12) |}.

(** Four files on disk. *)
Definition four_files : World :=
  bot_init false (<["a" := 1]> (<["b" := 2]> (<["c" := 3]> (<["d" := 4]> ∅)))).

(** The sessions of the users other than [user_id] are as they were. *)
Definition others_untouched (user_id : Z) (w w' : World) : Prop :=
  forall other, other <> user_id ->
    user_states w' !! other = user_states w !! other /\
    user_banners w' !! other = user_banners w !! other /\
    processing_users w' !! other = processing_users w !! other.

(** The busy flags are as they were. *)
Definition busy_unchanged (w w' : World) : Prop :=
  processing_users w' = processing_users w.

(** A banner of 2048 bytes announced as a PNG document. *)
Definition png_document : Message :=
  {| video := None;
     document := Some {| file_id := "doc-1"; file_size := 2048 |};
     photo := [] |}.
Definition png_meta : FileObj :=
  {| mime_type := Some "image/png"; file_name := Some "banner.png" |}.

(** Texts for the handlers outside the job. *)
Definition some_calls : Calls :=
  {| banner_needed := StartFirst;
     video_needed := SendBannerFirst;
     unknown_state := Unexpected;
     answer := LogLine;
     banner_prompt := Welcome;
     stats_text := Ready;
     help_text := Started;
     settings_text := Processing;
     system_error := BannerError |}.

(** Two users: 7 is about to send the video, 8 has just issued /start. *)
Definition two_users : World :=
  mkWorld stats_init (<[7 := WAITING_VIDEO]> (<[8 := WAITING_BANNER]> ∅))
          (<[7 := "temp/banner.jpg"]> ∅) ∅ false
          (<["temp/banner.jpg" := 2048]> ∅) [] None None.

(** The two locals of [handle_video] are as they were. *)
Definition same_paths (w w' : World) : Prop :=
  video_path w' = video_path w /\ output_path w' = output_path w.

(** An event that is not the creation of a temporary file. *)
Definition no_temp_file (e : event) : Prop :=
  match e with TempFile _ => False | _ => True end.

(** The locals are as they were and no temporary file was created. *)
Definition no_new_temp_file (w w' : World) : Prop :=
  same_paths w w' /\ extends no_temp_file w w'.

(** Every temporary file created since [w] is held by one of the two
    locals that the [finally] block of [handle_video] reads. *)
Definition temp_files_tracked (w w' : World) : Prop :=
  exists l, trace w' = trace w ++ l /\
    forall name, TempFile name ∈ l ->
      video_path w' = Some name \/ output_path w' = Some name.

(** The second temporary file cannot be created. *)
Definition second_temp_fails_env : Env :=
  {| MAX_FILE_SIZE := 2 * 1024 * 1024 * 1024;
     chan_raises := never;
     temp_name := fun n => if (n =? 1)%nat then Some "temp/video.mp4" else None;
     unlink_raises := fun _ => false;
     get_messages_result := Ok true;
     media_progress := [];
     media_effect := id;
     download_media_result := Ok true;
     get_file_raises := false;
     drive_effect := id;
     download_to_drive_raises := false;
     ffmpeg_effect := id;
     ffmpeg_outcome := Exited 0 "ok";
     wait_for_expires := false;
     read_raises := false;
     total_time := Q2Qc (inject_Z 12) |}.

(** The statistics have only been added to: no counter is lower, the
    largest size is not smaller, the fastest time is not slower. *)
Definition stats_only_grow (w w' : World) : Prop :=
  processed_videos (stats w) <= processed_videos (stats w') /\
  (total_processing_time (stats w) <= total_processing_time (stats w'))%Qc /\
  errors_count (stats w) <= errors_count (stats w') /\
  largest_file_size (stats w) <= largest_file_size (stats w') /\
  ftime_le (fastest_processing_time (stats w')) (fastest_processing_time (stats w)).

(** The figures of the successes are as they were, and the error counter
    is not lower. *)
Definition only_errors_counted (w w' : World) : Prop :=
  processed_videos (stats w') = processed_videos (stats w) /\
  total_processing_time (stats w') = total_processing_time (stats w) /\
  largest_file_size (stats w') = largest_file_size (stats w) /\
  fastest_processing_time (stats w') = fastest_processing_time (stats w) /\
  errors_count (stats w) <= errors_count (stats w').

(** The statistics after a series of successes, each with its duration
    and the size of its video. *)
Definition record_all (jobs : list (Qc * Z)) (self : SystemStats) : SystemStats :=
  foldl (fun s job => update_processing_stats (fst job) (snd job) s) self jobs.


(** A document that [handle_document] passes on: there is one, and the
    state of the user awaits a video or a banner of a supported type. *)
Definition document_accepted (lower : string -> string) (user_id : Z)
    (message : Message) (meta : FileObj) (w : World) : Prop :=
  document message <> None /\
  ((user_states w !! user_id = Some WAITING_VIDEO /\ _is_supported_video lower meta = true) \/
   (user_states w !! user_id = Some WAITING_BANNER /\ _is_supported_image lower meta = true)).

(** One call on the message channel was made, [call], and nothing else
    left the process. *)
Definition only_call (call : event) (w w' : World) : Prop :=
  new_events w w' = [call] \/ new_events w w' = [Failed call].

(** A PDF sent as a document. *)
Definition pdf_meta : FileObj :=
  {| mime_type := Some "application/pdf"; file_name := Some "notes.pdf" |}.

(** A string without a dot. *)
Fixpoint dot_free (s : string) : bool :=
  match s with
  | EmptyString => true
  | String c rest => negb (Ascii.eqb c "."%char) && dot_free rest
  end.

(** [a + '.' + b] *)
Definition dotted (a b : string) : string := String.append a (String "."%char b).

(** A document with no MIME type and no file name. *)
Definition bare_meta : FileObj := {| mime_type := None; file_name := None |}.

(** A process environment with the token and the three credentials, and
    one where the API id is not a number. *)
Definition full_environ : gmap string string :=
  <["BOT_TOKEN" := "123:abc"]> (<["API_ID" := "12345"]> (<["API_HASH" := "hash"]>
    (<["PHONE_NUMBER" := "+100"]> (<["MAX_FILE_SIZE" := "huge"]> ∅)))).
Definition bad_id_environ : gmap string string :=
  <["BOT_TOKEN" := "123:abc"]> (<["API_ID" := "abc"]> (<["API_HASH" := "hash"]>
    (<["PHONE_NUMBER" := "+100"]> ∅))).

(** [int] on the strings of these environments. *)
Definition int_of (s : string) : option Z :=
  if bool_decide (s = "12345") then Some 12345 else None.

(** [os.path.dirname] on the one log file of these environments. *)
Definition dirname_of (s : string) : string := "logs".

(* ===================================================================== *)
(** * Reasoning about computations *)
(* ===================================================================== *)

(** ** Relations every step of a computation respects *)

Section Stable.

Context {R : World -> World -> Prop} {P : event -> Prop} `{!Frame R P}.

Lemma stable_ret {A} (a : A) : stable R (ret a).
Proof. intros w. apply frame_refl. Qed.

Lemma stable_raise {A} (e : exn) : stable R (@raise A e).
Proof. intros w. apply frame_refl. Qed.

Lemma stable_gets {A} (f : World -> A) : stable R (gets f).
Proof. intros w. apply frame_refl. Qed.

Lemma stable_modify (f : World -> World) :
  (forall w, R w (f w)) -> stable R (modify f).
Proof. intros H w. apply H. Qed.

Lemma stable_emit (e : event) : P e -> stable R (modify (emit e)).
Proof. intros H w. apply frame_emit, H. Qed.

Lemma stable_set_files f : stable R (modify (set_files f)).
Proof. intros w. apply frame_files. Qed.

Lemma stable_bind {A B} (m : M A) (k : A -> M B) :
  stable R m -> (forall a, stable R (k a)) -> stable R (bind m k).
Proof.
  intros Hm Hk w. unfold exec, bind.
  specialize (Hm w). unfold exec in Hm.
  destruct (m w) as [[a|e] w1]; simpl in *; [|assumption].
  eapply frame_trans; [exact Hm|]. apply Hk.
Qed.

Lemma stable_try_except {A} (body : M A) (handler : exn -> M A) :
  stable R body -> (forall e, stable R (handler e)) ->
  stable R (try_except body handler).
Proof.
  intros Hb Hh w. unfold exec, try_except.
  specialize (Hb w). unfold exec in Hb.
  destruct (body w) as [[a|e] w1]; simpl in *; [assumption|].
  eapply frame_trans; [exact Hb|]. apply Hh.
Qed.

Lemma stable_try_finally {A} (body : M A) (final : M unit) :
  stable R body -> stable R final -> stable R (try_finally body final).
Proof.
  intros Hb Hf w. unfold exec, try_finally.
  specialize (Hb w). unfold exec in Hb.
  destruct (body w) as [r w1]; simpl in *.
  specialize (Hf w1). unfold exec in Hf.
  destruct (final w1) as [[[]|e] w2]; simpl in *; eapply frame_trans; eauto.
Qed.

Lemma stable_for_each {A} (l : list A) (f : A -> M unit) :
  (forall x, stable R (f x)) -> stable R (for_each l f).
Proof.
  intros Hf. induction l as [|x l IH]; simpl.
  - apply stable_ret.
  - apply stable_bind; [apply Hf | intros _; exact IH].
Qed.

Lemma stable_getsize (p : string) : stable R (getsize p).
Proof. intros w. unfold exec, getsize. destruct (files w !! p); apply frame_refl. Qed.

Lemma stable_exists_nonempty (p : string) : stable R (exists_nonempty p).
Proof. apply stable_gets. Qed.

(** *** The collaborators *)

Variable env : Env.

Lemma stable_channel (call : event) :
  P call -> P (Failed call) -> stable R (channel env call).
Proof.
  intros H1 H2 w. unfold exec, channel.
  destruct (chan_raises env _); simpl; apply frame_emit; assumption.
Qed.

Lemma stable_log_line : P LogLine -> stable R log_line.
Proof. apply stable_emit. Qed.

Lemma stable_unlink (p : string) : stable R (unlink env p).
Proof.
  intros w. unfold exec, unlink.
  destruct (unlink_raises env p); simpl; [apply frame_refl | apply frame_files].
Qed.

Lemma stable_cleanup_temp_files (file_paths : list (option string)) :
  P LogLine -> stable R (cleanup_temp_files env file_paths).
Proof.
  intros HP. induction file_paths as [|[p|] rest IH]; simpl.
  - apply stable_ret.
  - apply stable_bind; [|intros _; exact IH].
    apply stable_bind; [apply stable_gets|]. intros present.
    destruct (truthy p && present); [|apply stable_ret].
    apply stable_try_except; [apply stable_unlink|].
    intros _. apply stable_log_line, HP.
  - apply stable_bind; [apply stable_ret | intros _; exact IH].
Qed.

Lemma stable_NamedTemporaryFile :
  (forall name, P (TempFile name)) -> (forall name, P (Failed (TempFile name))) ->
  stable R (NamedTemporaryFile env).
Proof.
  intros H1 H2 w. unfold exec, NamedTemporaryFile.
  destruct (temp_name env _) as [name|]; simpl.
  - eapply frame_trans; [apply frame_files | apply (frame_emit _ (set_files _ w)), H1].
  - apply frame_emit, H2.
Qed.

Lemma stable_wait_for {A} (task : M A) : stable R task -> stable R (wait_for env task).
Proof.
  intros H w. unfold exec, wait_for.
  destruct (wait_for_expires env); simpl; apply H.
Qed.

End Stable.

(** One step of a syntax-directed proof of [stable R m]. *)
Ltac stable_step :=
  first
    [ apply stable_ret | apply stable_raise | apply stable_gets
    | apply stable_exists_nonempty | apply stable_getsize
    | apply stable_unlink | apply stable_set_files
    | apply stable_bind | apply stable_try_except
    | apply stable_try_finally | apply stable_for_each | apply stable_wait_for
    | match goal with
      | |- stable _ (if ?c then _ else _) => destruct c
      | |- stable _ (match ?x with _ => _ end) => destruct x
      end
    | progress intros ].

(** *** The downloader *)

Section StableDownload.

Context {R : World -> World -> Prop} {P : event -> Prop} `{!Frame R P}.
Variable env : Env.

Lemma stable__download_with_user_client message path sink :
  (forall e, user_client_event e = true -> P e) -> sink_stable R sink ->
  stable R (_download_with_user_client env message path sink).
Proof.
  intros HP Hs. unfold _download_with_user_client, get_messages, download_media,
    download_progress, sleep, log_line.
  repeat first [ stable_step | apply stable_emit, HP; reflexivity ].
  all: apply Hs.
Qed.

Lemma stable__download_with_bot_api message path sink :
  (forall e, bot_api_event e = true -> P e) -> sink_stable R sink ->
  stable R (_download_with_bot_api env message path sink).
Proof.
  intros HP Hs. unfold _download_with_bot_api, get_file, download_to_drive, log_line.
  repeat first [ stable_step | apply stable_emit, HP; reflexivity ].
  all: apply Hs.
Qed.

Lemma stable_smart_download message path sink :
  (forall e, user_client_event e = true -> P e) ->
  (forall e, bot_api_event e = true -> P e) ->
  P (EnterDownload path) -> sink_stable R sink ->
  stable R (smart_download env message path sink).
Proof.
  intros HP1 HP2 HP3 Hs. unfold smart_download.
  apply stable_bind; [apply stable_emit, HP3|]. intros _.
  apply stable_try_except.
  - apply stable_bind; [apply stable_gets|]. intros client.
    apply stable_bind.
    + destruct client; [apply stable__download_with_user_client; assumption | apply stable_ret].
    + intros [|]; [apply stable_ret | apply stable__download_with_bot_api; assumption].
  - intros _. apply stable_bind; [apply stable_log_line, HP2; reflexivity | intros _; apply stable_ret].
Qed.

(** The two sinks only edit the progress message. *)
Lemma stable_smart_progress x :
  (forall n, P (EditText n)) -> (forall n, P (Failed (EditText n))) ->
  stable R (smart_progress env x).
Proof.
  intros H1 H2. unfold smart_progress, edit_text.
  apply stable_try_except; [apply stable_channel; auto | intros _; apply stable_ret].
Qed.

Lemma stable_progress_callback x :
  (forall n, P (EditText n)) -> (forall n, P (Failed (EditText n))) ->
  stable R (progress_callback env x).
Proof.
  intros H1 H2. unfold progress_callback, edit_text.
  destruct (decide _); [|apply stable_ret].
  apply stable_try_except; [apply stable_channel; auto | intros _; apply stable_ret].
Qed.

End StableDownload.

(** ** Two frames *)

#[global] Instance same_session_frame : Frame same_session (fun _ => True).
Proof.
  split.
  - intros w. unfold same_session. tauto.
  - intros a b c H1 H2. unfold same_session in *.
    destruct H1 as (?&?&?&?&?&?&?), H2 as (?&?&?&?&?&?&?). repeat split; congruence.
  - intros e w _. unfold same_session. simpl. tauto.
  - intros f w. unfold same_session. simpl. tauto.
Qed.

#[global] Instance extends_frame (P : event -> Prop) : Frame (extends P) P.
Proof.
  split.
  - intros w. exists []. split; [by rewrite app_nil_r | constructor].
  - intros a b c (l1 & E1 & F1) (l2 & E2 & F2). exists (l1 ++ l2). split.
    + by rewrite E2, E1, app_assoc.
    + by apply Forall_app.
  - intros e w H. exists [e]. split; [reflexivity | by repeat constructor].
  - intros f w. exists []. split; [by rewrite app_nil_r | constructor].
Qed.

Lemma extends_quiet (P : event -> Prop) (w w' : World) :
  trace w' = trace w -> extends P w w'.
Proof. intros E. exists []. split; [by rewrite app_nil_r | constructor]. Qed.

(** ** The resource tracker, one path at a time *)

Lemma cleanup_temp_files_cons env file_path rest w :
  cleanup_temp_files env (file_path :: rest) w
  = cleanup_temp_files env rest (release env file_path w).
Proof.
  simpl. unfold bind, release, gets, try_except, unlink, log_line, modify, ret.
  destruct file_path as [p|]; [|reflexivity].
  destruct (truthy p && bool_decide (is_Some (files w !! p))); [|reflexivity].
  by destruct (unlink_raises env p).
Qed.

#[global] Arguments cleanup_temp_files : simpl never.
#[global] Arguments release : simpl never.

Lemma cleanup_temp_files_returns env file_paths w :
  outcome (cleanup_temp_files env file_paths) w = Ok tt.
Proof.
  revert w. induction file_paths as [|o rest IH]; intros w; [reflexivity|].
  unfold outcome in *. rewrite cleanup_temp_files_cons. apply IH.
Qed.

Lemma cleanup_temp_files_one env file_path w :
  cleanup_temp_files env [file_path] w = (Ok tt, release env file_path w).
Proof. by rewrite cleanup_temp_files_cons. Qed.

Lemma release_same_session env file_path w : same_session w (release env file_path w).
Proof.
  unfold release. destruct file_path as [p|]; [|apply frame_refl].
  destruct (_ && _); [|apply frame_refl].
  destruct (unlink_raises env p); [by apply frame_emit | apply frame_files].
Qed.

(** A path handed to [release] is gone afterwards, unless it is the empty
    string or [os.unlink] raised on it. *)
Lemma release_gone env p w :
  p <> EmptyString ->
  files (release env (Some p) w) !! p = None \/ unlink_raises env p = true.
Proof.
  intros Hp. unfold release, truthy. rewrite bool_decide_true by exact Hp. simpl.
  destruct (files w !! p) as [size|] eqn:E.
  - rewrite bool_decide_true by eauto.
    destruct (unlink_raises env p); [by right | left]. simpl. apply lookup_delete_eq.
  - rewrite bool_decide_false by (intros [? ?]; congruence). by left.
Qed.

(** ** Postconditions *)

Section Wp.

Context {A : Type} (Q : result A -> World -> Prop) (w : World).

Lemma wp_ret (a : A) : Q (Ok a) w -> wp (ret a) Q w.
Proof. done. Qed.

Lemma wp_raise (e : exn) : Q (Raise e) w -> wp (raise e) Q w.
Proof. done. Qed.

Lemma wp_gets (f : World -> A) : Q (Ok (f w)) w -> wp (gets f) Q w.
Proof. done. Qed.

Lemma wp_bind {B} (m : M B) (k : B -> M A) :
  wp m (then_wp k Q) w -> wp (bind m k) Q w.
Proof.
  unfold then_wp, wp, outcome, exec, bind.
  by destruct (m w) as [[b|e] w1].
Qed.

Lemma wp_try_except (body : M A) (handler : exn -> M A) :
  wp body (except_wp handler Q) w -> wp (try_except body handler) Q w.
Proof.
  unfold except_wp, wp, outcome, exec, try_except.
  by destruct (body w) as [[a|e] w1].
Qed.

Lemma wp_try_finally (body : M A) (final : M unit) :
  wp body (finally_wp final Q) w -> wp (try_finally body final) Q w.
Proof.
  unfold finally_wp, wp, outcome, exec, try_finally.
  destruct (body w) as [r w1]. simpl. destruct (final w1) as [[[]|e] w2]; simpl; auto.
Qed.

(** What is known of a computation may replace its run. *)
Lemma wp_known (m : M A) (K : result A -> World -> Prop) :
  wp m K w -> (forall r w1, m w = (r, w1) -> K r w1 -> Q r w1) -> wp m Q w.
Proof.
  unfold wp, outcome, exec. intros HK H. destruct (m w) as [r w1] eqn:E. by apply H.
Qed.

Lemma wp_stable (R : World -> World -> Prop) (m : M A) :
  stable R m -> (forall r w1, R w w1 -> Q r w1) -> wp m Q w.
Proof. intros Hs H. apply H, Hs. Qed.

End Wp.

Lemma wp_modify (Q : result unit -> World -> Prop) w (f : World -> World) :
  Q (Ok tt) (f w) -> wp (modify f) Q w.
Proof. done. Qed.

Lemma wp_getsize (Q : result Z -> World -> Prop) w (p : string) :
  (forall size, files w !! p = Some size -> Q (Ok size) w) ->
  (files w !! p = None -> Q (Raise OSError) w) ->
  wp (getsize p) Q w.
Proof.
  unfold wp, outcome, exec, getsize. intros H1 H2.
  destruct (files w !! p) as [size|]; [by apply H1 | by apply H2].
Qed.

Lemma wp_channel env (Q : result unit -> World -> Prop) w (call : event) :
  (chan_raises env (length (trace w)) = true ->
     Q (Raise TelegramError) (emit (Failed call) w)) ->
  (chan_raises env (length (trace w)) = false -> Q (Ok tt) (emit call w)) ->
  wp (channel env call) Q w.
Proof.
  unfold wp, outcome, exec, channel. intros H1 H2.
  destruct (chan_raises env _); [by apply H1 | by apply H2].
Qed.

Lemma wp_NamedTemporaryFile env (Q : result string -> World -> Prop) w :
  (forall name, temp_name env (length (trace w)) = Some name ->
     Q (Ok name) (emit (TempFile name) (set_files (insert name 0) w))) ->
  (temp_name env (length (trace w)) = None ->
     Q (Raise OSError) (emit (Failed (TempFile EmptyString)) w)) ->
  wp (NamedTemporaryFile env) Q w.
Proof.
  unfold wp, outcome, exec, NamedTemporaryFile. intros H1 H2.
  destruct (temp_name env _) as [name|]; [by apply H1 | by apply H2].
Qed.

Lemma wp_cleanup_temp_files env (Q : result unit -> World -> Prop) w file_paths :
  Q (Ok tt) (foldl (fun w1 file_path => release env file_path w1) w file_paths) ->
  wp (cleanup_temp_files env file_paths) Q w.
Proof.
  unfold wp, outcome, exec. revert w.
  induction file_paths as [|o rest IH]; intros w H; [done|].
  rewrite cleanup_temp_files_cons. by apply IH.
Qed.

(** One step of a proof of [wp m Q w]. *)
Ltac wp_step :=
  lazymatch goal with
  | |- wp (bind _ _) _ _ => apply wp_bind
  | |- wp (gets _) _ _ => apply wp_gets
  | |- wp (modify _) _ _ => apply wp_modify
  | |- wp (ret _) _ _ => apply wp_ret
  | |- wp (raise _) _ _ => apply wp_raise
  | |- wp (try_except _ _) _ _ => apply wp_try_except
  | |- wp (try_finally _ _) _ _ => apply wp_try_finally
  | |- wp (cleanup_temp_files _ _) _ _ => apply wp_cleanup_temp_files
  end;
  unfold then_wp, except_wp, finally_wp; cbv beta iota.

(* ===================================================================== *)
(** * Statistics aggregator *)
(* ===================================================================== *)

Lemma py_max_Zmax (a b : Z) : py_max a b = Z.max a b.
Proof. unfold py_max. destruct (Z.ltb_spec a b); lia. Qed.

Lemma py_min_glb (a : ftime) (b : Qc) :
  ftime_le (py_min a b) a /\ ftime_le (py_min a b) (Finite b) /\
  (py_min a b = a \/ py_min a b = Finite b).
Proof.
  destruct a as [t|]; simpl.
  - destruct (Qclt_le_dec b t) as [Hlt|Hle]; simpl.
    + split; [apply Qclt_le_weak, Hlt|]. split; [apply Qcle_refl | by right].
    + split; [apply Qcle_refl|]. split; [exact Hle | by left].
  - split; [exact I|]. split; [apply Qcle_refl | by right].
Qed.




(* ===================================================================== *)
(** * Transport fallback downloader *)
(* ===================================================================== *)

Lemma exists_nonempty_true p w w' :
  exists_nonempty p w = (Ok true, w') -> nonempty_at p w'.
Proof.
  unfold exists_nonempty, gets. intros H. injection H as H <-.
  destruct (files w !! p) as [size|] eqn:E; [|discriminate].
  exists size. split; [exact E|]. by apply Z.ltb_lt.
Qed.

Lemma try_except_total {A} (body : M A) (handler : exn -> M A) w :
  (forall e w1, exists a, outcome (handler e) w1 = Ok a) ->
  exists a, outcome (try_except body handler) w = Ok a.
Proof.
  intros H. unfold outcome, try_except.
  destruct (body w) as [[a|e] w1]; [by exists a | apply H].
Qed.

Lemma _download_with_user_client_total env message path sink w :
  exists b, outcome (_download_with_user_client env message path sink) w = Ok b.
Proof.
  apply try_except_total. intros e w1. exists false. by destruct e.
Qed.

Lemma _download_with_bot_api_total env message path sink w :
  exists b, outcome (_download_with_bot_api env message path sink) w = Ok b.
Proof. apply try_except_total. intros e w1. by exists false. Qed.

Lemma smart_download_total env message path sink w :
  exists b, outcome (smart_download env message path sink) w = Ok b.
Proof.
  unfold smart_download, outcome, bind, modify.
  apply try_except_total. intros e w1. by exists false.
Qed.

Lemma _download_with_user_client_true env message path sink w w' :
  _download_with_user_client env message path sink w = (Ok true, w') ->
  nonempty_at path w'.
Proof.
  unfold _download_with_user_client, try_except, bind, gets, ret, sleep,
    log_line, modify, exists_nonempty.
  intros H. repeat (case_match; simplify_eq; simpl in * ).
  - exists z. split; [assumption|]. apply Z.ltb_lt. by destruct a0.
  - by destruct a0.
Qed.

Lemma _download_with_bot_api_true env message path sink w w' :
  _download_with_bot_api env message path sink w = (Ok true, w') ->
  nonempty_at path w'.
Proof.
  unfold _download_with_bot_api, try_except, bind, ret, log_line, modify.
  intros H. repeat (case_match; simplify_eq; simpl in * ).
  all: eapply exists_nonempty_true; eassumption.
Qed.

Lemma smart_download_true env message path sink w w' :
  smart_download env message path sink w = (Ok true, w') -> nonempty_at path w'.
Proof.
  unfold smart_download, try_except, bind, gets, ret, log_line, modify.
  intros H. repeat (case_match; simplify_eq; simpl in * ).
  all: first [ eapply _download_with_user_client_true; eassumption
             | eapply _download_with_bot_api_true; eassumption ].
Qed.

(** C5. A fetch always reports a boolean, and it reports success only
    when the destination exists afterwards with a size above zero: so do
    the primary path, the secondary path and the fetch as a whole. *)
Theorem fetch_success_needs_nonempty_file env message path sink w :
  (exists b, outcome (smart_download env message path sink) w = Ok b) /\
  (outcome (_download_with_user_client env message path sink) w = Ok true ->
   nonempty_at path (exec (_download_with_user_client env message path sink) w)) /\
  (outcome (_download_with_bot_api env message path sink) w = Ok true ->
   nonempty_at path (exec (_download_with_bot_api env message path sink) w)) /\
  (outcome (smart_download env message path sink) w = Ok true ->
   nonempty_at path (exec (smart_download env message path sink) w)).
Proof.
  split; [apply smart_download_total|].
  unfold outcome, exec. repeat split; intros H.
  - destruct (_download_with_user_client _ _ _ _ w) as [r w'] eqn:E. simpl in *. subst r.
    eapply _download_with_user_client_true, E.
  - destruct (_download_with_bot_api _ _ _ _ w) as [r w'] eqn:E. simpl in *. subst r.
    eapply _download_with_bot_api_true, E.
  - destruct (smart_download _ _ _ _ w) as [r w'] eqn:E. simpl in *. subst r.
    eapply smart_download_true, E.
Qed.

(** A run of the secondary transport that writes 2048 bytes. *)
Lemma fetch_success_needs_nonempty_file_witness :
  nonempty_at "dst"
    (exec (smart_download (drive_env (insert "dst" 2048)) video_message "dst" None)
          (bot_init false ∅)).
Proof.
  apply (fetch_success_needs_nonempty_file (drive_env (insert "dst" 2048))
           video_message "dst" None (bot_init false ∅)).
  vm_compute. reflexivity.
Defined.

(** ** Rate limit on the primary transport *)

Lemma extends_mono (P Q : event -> Prop) w w' :
  (forall e, P e -> Q e) -> extends P w w' -> extends Q w w'.
Proof.
  intros H (l & E & F). exists l. split; [exact E|].
  eapply Forall_impl; [exact F | exact H].
Qed.

Lemma smart_progress_ui_sink env : ui_sink (Some (smart_progress env)).
Proof.
  intros x w. split.
  - unfold outcome, smart_progress, try_except, edit_text, channel.
    by destruct (chan_raises env _).
  - apply (stable_smart_progress (R := extends (fun e => ui_event e = true))); reflexivity.
Qed.

Lemma progress_callback_ui_sink env : ui_sink (Some (progress_callback env)).
Proof.
  intros x w. split.
  - unfold outcome, progress_callback, try_except, edit_text, channel.
    destruct (decide _); [|reflexivity]. by destruct (chan_raises env _).
  - apply (stable_progress_callback (R := extends (fun e => ui_event e = true))); reflexivity.
Qed.





(* ===================================================================== *)
(** * Session state machine *)
(* ===================================================================== *)

(** ** The entry command *)










(** ** Banner upload *)

Lemma smart_download_banner_same_session env message p :
  stable same_session (smart_download env message p (Some (progress_callback env))).
Proof.
  apply (stable_smart_download (R := same_session) (P := fun _ => True)); try done.
  intros x. by apply (stable_progress_callback (R := same_session) (P := fun _ => True)).
Qed.

(** [handle_banner] from the download on, when the download has failed. *)
Lemma handle_banner_download_fails env user_id message w p wb :
  user_states w !! user_id = Some WAITING_BANNER ->
  chan_raises env (length (trace w)) = false ->
  temp_name env (S (length (trace w))) = Some p ->
  smart_download env message p (Some (progress_callback env)) (banner_download_start w p)
    = (Ok false, wb) ->
  let w' := exec (handle_banner env user_id message) w in
  user_states w' = user_states w /\ user_banners w' = user_banners w /\
  (chan_raises env (length (trace wb)) = false -> p <> EmptyString ->
     files w' !! p = None \/ unlink_raises env p = true).
Proof.
  intros Hst Hch Htmp Hdl.
  pose proof (smart_download_banner_same_session env message p (banner_download_start w p)) as Hss.
  unfold exec in Hss. rewrite Hdl in Hss. simpl in Hss.
  destruct Hss as (_ & Hs & Hb & _). simpl in Hs, Hb.
  unfold exec, handle_banner, bind, gets. rewrite Hst.
  destruct (decide (Some WAITING_BANNER <> Some WAITING_BANNER)) as [?|_]; [done|].
  unfold try_except, bind, reply_text, edit_text, channel, NamedTemporaryFile.
  rewrite Hch. simpl. rewrite length_app. simpl.
  replace (length (trace w) + 1)%nat with (S (length (trace w))) by lia.
  rewrite Htmp. fold (banner_download_start w p). rewrite Hdl. simpl.
  destruct (chan_raises env (length (trace wb))) eqn:Hn.
  - unfold log_line, modify. simpl.
    destruct (chan_raises env (length ((trace wb ++ _) ++ _))); simpl;
      (split; [congruence|]; split; [congruence | done]).
  - rewrite cleanup_temp_files_one. simpl.
    destruct (release_same_session env (Some p) (emit (EditText BannerDownloadError) wb))
      as (_ & E1 & E2 & _). simpl in E1, E2.
    split; [congruence|]. split; [congruence|].
    intros _ Hne. by apply release_gone.
Qed.

#[global] Instance same_states_banners_frame : Frame same_states_banners (fun _ => True).
Proof.
  split.
  - by intros w.
  - intros a b c [H1 H2] [H3 H4]. split; congruence.
  - by intros e w _.
  - by intros f w.
Qed.

Lemma handle_banner_except_stable env :
  stable same_states_banners
    (log_line ;;; reply_text env BannerError ;;; modify (set_stats count_error)).
Proof.
  apply stable_bind; [by apply stable_log_line|]. intros _.
  apply stable_bind; [by apply stable_channel|]. intros _.
  by apply stable_modify.
Qed.

Lemma handle_banner_cases env user_id message w :
  user_states w !! user_id = Some WAITING_BANNER ->
  banner_handled env user_id message w (exec (handle_banner env user_id message) w).
Proof.
  intros Hst.
  change (wp (handle_banner env user_id message)
             (fun _ w' => banner_handled env user_id message w w') w).
  unfold handle_banner. apply wp_bind, wp_gets. unfold then_wp. rewrite Hst.
  destruct (decide (Some WAITING_BANNER <> Some WAITING_BANNER)) as [?|_]; [done|].
  assert (Hex : forall w1, same_states_banners w w1 ->
            wp (log_line ;;; reply_text env BannerError ;;; modify (set_stats count_error))
               (fun _ w' => banner_handled env user_id message w w') w1).
  { intros w1 H1. eapply wp_stable; [apply handle_banner_except_stable|].
    intros _ w2 H2. left. eapply (frame_trans (R := same_states_banners)); eassumption. }
  apply wp_try_except, wp_bind, wp_channel; intros Hch; [by apply Hex|].
  apply wp_bind, wp_NamedTemporaryFile; simpl; rewrite length_app; simpl;
    replace (length (trace w) + 1)%nat with (S (length (trace w))) by lia;
    [intros p Htmp | intros _; by apply Hex].
  fold (banner_download_start w p).
  apply wp_bind. eapply wp_known.
  { eapply (wp_stable _ _ same_session); [apply smart_download_banner_same_session|].
    intros r w1 H. exact H. }
  intros r wb Hdl (_ & Hs & Hb & _). simpl in Hs, Hb.
  destruct (smart_download_total env message p (Some (progress_callback env))
              (banner_download_start w p)) as [ok Hok].
  unfold outcome in Hok. rewrite Hdl in Hok. simpl in Hok. subst r. simpl.
  destruct ok; simpl.
  - assert (Hin : forall w1, user_states w1 = user_states w ->
               user_banners w1 = <[user_id := p]> (user_banners w) ->
               banner_handled env user_id message w w1).
    { intros w1 E1 E2. right. exists p, wb. repeat split; try done. by left. }
    assert (Hin' : forall w1,
               user_states w1 = <[user_id := WAITING_VIDEO]> (user_states w) ->
               user_banners w1 = <[user_id := p]> (user_banners w) ->
               banner_handled env user_id message w w1).
    { intros w1 E1 E2. right. exists p, wb. repeat split; try done. by right. }
    assert (Hex' : forall w1, user_states w1 = user_states w ->
               user_banners w1 = <[user_id := p]> (user_banners w) ->
               wp (log_line ;;; reply_text env BannerError ;;; modify (set_stats count_error))
                  (fun _ w' => banner_handled env user_id message w w') w1).
    { intros w1 E1 E2. eapply wp_stable; [apply handle_banner_except_stable|].
      intros _ w2 [F1 F2]. apply Hin; congruence. }
    apply wp_bind, wp_modify. simpl.
    apply wp_bind, wp_getsize; simpl; [intros size _ | intros _; apply Hex'; simpl; congruence].
    apply wp_bind, wp_channel; intros Hn; simpl;
      [apply Hex'; simpl; congruence|].
    apply wp_modify. apply Hin'; simpl; congruence.
  - apply wp_bind, wp_channel; intros Hn; simpl.
    + apply Hex. split; simpl; congruence.
    + apply wp_cleanup_temp_files. simpl. cbv beta. left.
      destruct (release_same_session env (Some p) (emit (EditText BannerDownloadError) wb))
        as (_ & E1 & E2 & _). simpl in E1, E2. split; congruence.
Qed.

(** The state advances to WAITING_VIDEO, or a banner is newly stored,
    only when the download has succeeded. *)
Lemma handle_banner_advance_needs_success env user_id message w :
  user_states w !! user_id = Some WAITING_BANNER ->
  let w' := exec (handle_banner env user_id message) w in
  user_states w' !! user_id = Some WAITING_VIDEO \/ user_banners w' <> user_banners w ->
  exists p wb,
    smart_download env message p (Some (progress_callback env)) (banner_download_start w p)
      = (Ok true, wb) /\
    nonempty_at p wb /\ user_banners w' !! user_id = Some p.
Proof.
  intros Hst w' Hadv.
  destruct (handle_banner_cases env user_id message w Hst) as [[E1 E2] | (p & wb & _ & _ & Hdl & Hb & _)].
  - fold w' in E1, E2. destruct Hadv as [H|H]; [|done].
    rewrite E1, Hst in H. discriminate.
  - exists p, wb. split; [exact Hdl|]. split; [eapply smart_download_true, Hdl|].
    fold w' in Hb. rewrite Hb. apply lookup_insert_eq.
Qed.

(** C10 at the failing input: the banner download fails and the edit
    that reports the failure raises.  The [except] block runs instead of
    [cleanup_temp_files]: the empty temporary file stays on disk (although
    [os.unlink] would not have raised on it), while the state is still
    WAITING_BANNER and no banner is stored.  When the edit goes through,
    the file is removed. *)
Theorem banner_temp_file_left_when_notice_raises :
  let w' := exec (handle_banner banner_fails_notice_raises_env 7 photo_message)
                 waiting_banner in
  let w'' := exec (handle_banner banner_fails_env 7 photo_message) waiting_banner in
  trace w' = [ ReplyText DownloadingBanner; TempFile "temp/banner.jpg";
               EnterDownload "temp/banner.jpg"; GetFile "ph-large"; LogLine;
               Failed (EditText BannerDownloadError); LogLine;
               ReplyText BannerError ] /\
  files w' !! "temp/banner.jpg" = Some 0 /\
  unlink_raises banner_fails_notice_raises_env "temp/banner.jpg" = false /\
  user_states w' !! 7 = Some WAITING_BANNER /\
  user_banners w' !! 7 = None /\
  files w'' !! "temp/banner.jpg" = None.
Proof. vm_compute. repeat split; reflexivity. Qed.

(* ===================================================================== *)
(** * Job coordinator *)
(* ===================================================================== *)

(** ** The [finally] block *)


Lemma run_job_exec env user_id message w :
  exec (run_job env user_id message) w
  = exec (job_finally env user_id)
         (exec (try_except (job_body env user_id message) (job_except env)) w).
Proof.
  unfold run_job, exec, try_finally.
  destruct (try_except _ _ w) as [r w1]. simpl.
  by destruct (job_finally env user_id w1) as [[[]|e] w2].
Qed.


(** ** Events of a job *)

Lemma extends_new_events (P : event -> Prop) w w' :
  extends P w w' -> Forall P (new_events w w').
Proof.
  intros (l & E & F). unfold new_events. rewrite E.
  by rewrite drop_app_length.
Qed.

Lemma stable_quiet (P : event -> Prop) (f : World -> World) :
  (forall w, trace (f w) = trace w) -> stable (extends P) (modify f).
Proof. intros H. apply stable_modify. intros w. apply extends_quiet, H. Qed.


Lemma stable_job_finally (P : event -> Prop) env user_id :
  P LogLine -> stable (extends P) (job_finally env user_id).
Proof.
  intros H. unfold job_finally.
  repeat first [ apply stable_cleanup_temp_files; assumption
               | apply stable_quiet; reflexivity
               | stable_step ].
Qed.





(** ** Delivery *)

Lemma new_events_emit w e : new_events w (emit e w) = [e].
Proof. unfold new_events. simpl. by rewrite drop_app_length. Qed.



(** The two scenarios of the specification: an output of 48 MB is
    delivered as a video, one of 80 MB as a document; the session is back
    to IDLE and one success is recorded. *)
Example scenario_48MB_video :
  let w := exec (handle_video (success_env (48 * 1024 * 1024)) 7 video_message) ready in
  trace w = [ ReplyText Started; TempFile "temp/video.mp4"; TempFile "temp/output.mp4";
              EnterDownload "temp/video.mp4"; GetFile "vid-1";
              DownloadToDrive "temp/video.mp4"; EditText (Downloading 100);
              EditText Processing;
              RunFfmpeg "temp/video.mp4" "temp/banner.jpg" "temp/output.mp4";
              EditText Ready; ReadFile "temp/output.mp4";
              ReplyVideo 50331648; DeleteMessage ] /\
  user_states w !! 7 = Some IDLE /\ processed_videos (stats w) = 1 /\
  files w = ∅.
Proof. vm_compute. repeat split; reflexivity. Qed.

Example scenario_80MB_document :
  let w := exec (handle_video (success_env (80 * 1024 * 1024)) 7 video_message) ready in
  trace w = [ ReplyText Started; TempFile "temp/video.mp4"; TempFile "temp/output.mp4";
              EnterDownload "temp/video.mp4"; GetFile "vid-1";
              DownloadToDrive "temp/video.mp4"; EditText (Downloading 100);
              EditText Processing;
              RunFfmpeg "temp/video.mp4" "temp/banner.jpg" "temp/output.mp4";
              EditText Ready; ReadFile "temp/output.mp4";
              ReplyDocument 83886080; DeleteMessage ] /\
  user_states w !! 7 = Some IDLE /\ processed_videos (stats w) = 1.
Proof. vm_compute. repeat split; reflexivity. Qed.

(** ** Progress of the video download *)

(** [smart_progress] edits the progress message on every call. *)
Lemma smart_progress_always_edits env x w :
  new_events w (exec (smart_progress env x) w)
  = [ if chan_raises env (length (trace w))
      then Failed (EditText (Downloading (py_int x)))
      else EditText (Downloading (py_int x)) ].
Proof.
  unfold smart_progress, exec, try_except, edit_text, channel.
  destruct (chan_raises env _); simpl; by rewrite new_events_emit.
Qed.

(** The sink of the banner download does nothing off the multiples of 25. *)
Lemma progress_callback_throttled env x w :
  py_int x `mod` 25 <> 0 -> progress_callback env x w = (Ok tt, w).
Proof.
  intros H. unfold progress_callback. by destruct (decide (py_int x `mod` 25 = 0)).
Qed.

(** C3 at the failing input: the primary transport reports 1, 2 and 3
    of 3 bytes of the video; the sink that [handle_video] passes edits the
    progress message at 33, 66 and 100 percent, that is on every report
    and not only on the multiples of a step (no step above 1 divides the
    three). *)
Theorem video_progress_edits_every_report :
  trace (exec (handle_video progress_env 7 video_message) ready_client)
  = [ ReplyText Started; TempFile "temp/video.mp4"; TempFile "temp/output.mp4";
      EnterDownload "temp/video.mp4"; GetMessages; DownloadMedia "temp/video.mp4";
      EditText (Downloading 33); EditText (Downloading 66); EditText (Downloading 100);
      EditText Processing;
      RunFfmpeg "temp/video.mp4" "temp/banner.jpg" "temp/output.mp4";
      EditText Ready; ReadFile "temp/output.mp4"; ReplyVideo 5000; DeleteMessage ] /\
  py_int (percent 1 3) = 33 /\ py_int (percent 2 3) = 66 /\
  Z.gcd 33 (Z.gcd 66 100) = 1.
Proof.
  split; [vm_compute; reflexivity|]. split; [reflexivity|]. split; reflexivity.
Qed.

(** ** Outcomes of a job *)

#[global] Instance reset_after_delete_frame user_id :
  Frame (reset_after_delete user_id) (fun _ => True).
Proof.
  split.
  - intros w. exists []. split; [by rewrite app_nil_r | by left].
  - intros a b c (l1 & E1 & H1) (l2 & E2 & H2). exists (l1 ++ l2).
    split; [by rewrite E2, E1, app_assoc|].
    destruct H1 as [H1|[H1 D1]], H2 as [H2|[H2 D2]].
    + left. congruence.
    + right. split; [congruence | set_solver].
    + right. split; [congruence | set_solver].
    + right. split; [|set_solver]. rewrite H2, H1. apply insert_insert_eq.
  - intros e w _. exists [e]. split; [done | by left].
  - intros f w. exists []. split; [by rewrite app_nil_r | by left].
Qed.

Lemma reset_after_delete_quiet user_id (f : World -> World) :
  (forall w, trace (f w) = trace w) -> (forall w, user_states (f w) = user_states w) ->
  stable (reset_after_delete user_id) (modify f).
Proof.
  intros H1 H2. apply stable_modify. intros w. exists [].
  split; [by rewrite app_nil_r, H1 | left; apply H2].
Qed.

Lemma stable_delete_then_idle env user_id :
  stable (reset_after_delete user_id)
    (channel env DeleteMessage ;;; modify (set_user_states (insert user_id IDLE))).
Proof.
  intros w. unfold exec, bind, channel, modify.
  destruct (chan_raises env _); simpl.
  - exists [Failed DeleteMessage]. split; [done | by left].
  - exists [DeleteMessage]. split; [done|]. right. split; [done | set_solver].
Qed.

Lemma stable_run_job_reset env user_id message :
  stable (reset_after_delete user_id) (run_job env user_id message).
Proof.
  unfold run_job, job_body, job_except, job_finally, send_result, reply_text, edit_text,
    run_ffmpeg_ultra_fast.
  repeat first
    [ apply stable_delete_then_idle
    | apply stable_channel; exact I
    | apply stable_log_line; exact I
    | apply stable_NamedTemporaryFile; intros; exact I
    | apply stable_cleanup_temp_files; exact I
    | apply stable_smart_download;
        [ intros; exact I | intros; exact I | exact I
        | intros x; apply stable_smart_progress; intros; exact I ]
    | apply stable_emit; exact I
    | apply reset_after_delete_quiet; reflexivity
    | stable_step ].
Qed.

(** A video that was taken leaves the user in PROCESSING, unless the
    result went out and the progress message was deleted: only then is the
    state IDLE. *)
Lemma handle_video_state_after_job env user_id message w :
  video_rejection user_id w = None ->
  let w' := exec (handle_video env user_id message) w in
  user_states w' !! user_id = Some PROCESSING \/
  (user_states w' !! user_id = Some IDLE /\ DeleteMessage ∈ new_events w w').
Proof.
  intros Hv. unfold exec, handle_video. rewrite Hv.
  destruct (stable_run_job_reset env user_id message (start_job user_id w))
    as (l & E & H).
  unfold exec in E, H. unfold new_events. rewrite E. simpl.
  rewrite drop_app_length.
  destruct H as [H|[H D]]; rewrite H; simpl.
  - left. apply lookup_insert_eq.
  - right. split; [apply lookup_insert_eq | exact D].
Qed.

#[global] Instance counted_after_notice_frame :
  Frame counted_after_notice (fun _ => True).
Proof.
  split.
  - intros w. exists []. split; [by rewrite app_nil_r | by left].
  - intros a b c (l1 & E1 & H1) (l2 & E2 & H2). exists (l1 ++ l2).
    split; [by rewrite E2, E1, app_assoc|].
    destruct H1 as [H1|H1]; [|right; apply Exists_app; by left].
    destruct H2 as [H2|H2]; [left; congruence | right; apply Exists_app; by right].
  - intros e w _. exists [e]. split; [done | by left].
  - intros f w. exists []. split; [by rewrite app_nil_r | by left].
Qed.

Lemma counted_after_notice_quiet (f : World -> World) :
  (forall w, trace (f w) = trace w) ->
  (forall w, errors_count (stats (f w)) = errors_count (stats w)) ->
  stable counted_after_notice (modify f).
Proof.
  intros H1 H2. apply stable_modify. intros w. exists [].
  split; [by rewrite app_nil_r, H1 | left; apply H2].
Qed.

Lemma stable_notice_then_count env (call : event) :
  counted_notice call ->
  stable counted_after_notice (channel env call ;;; modify (set_stats count_error)).
Proof.
  intros Hc w. unfold exec, bind, channel, modify.
  destruct (chan_raises env _); simpl.
  - exists [Failed call]. split; [done | by left].
  - exists [call]. split; [done|]. right. by constructor.
Qed.

Lemma stable_run_job_counted env user_id message :
  stable counted_after_notice (run_job env user_id message).
Proof.
  unfold run_job, job_body, job_except, job_finally, send_result, reply_text, edit_text,
    run_ffmpeg_ultra_fast.
  repeat first
    [ apply stable_notice_then_count; solve [by left | by right]
    | apply stable_channel; exact I
    | apply stable_log_line; exact I
    | apply stable_NamedTemporaryFile; intros; exact I
    | apply stable_cleanup_temp_files; exact I
    | apply stable_smart_download;
        [ intros; exact I | intros; exact I | exact I
        | intros x; apply stable_smart_progress; intros; exact I ]
    | apply stable_emit; exact I
    | apply counted_after_notice_quiet; reflexivity
    | stable_step ].
Qed.

(** A video that was taken leaves the error counter as it was, unless the
    notice of a failed transcode or of an unexpected error went out: the
    notices of a failed download and of a timeout do not count. *)
Lemma handle_video_errors_after_job env user_id message w :
  video_rejection user_id w = None ->
  let w' := exec (handle_video env user_id message) w in
  errors_count (stats w') = errors_count (stats w) \/
  Exists counted_notice (new_events w w').
Proof.
  intros Hv. unfold exec, handle_video. rewrite Hv.
  destruct (stable_run_job_counted env user_id message (start_job user_id w))
    as (l & E & H).
  unfold exec in E, H. unfold new_events. rewrite E. simpl.
  rewrite drop_app_length. exact H.
Qed.

(** C1 at the failing inputs: user 7 is in WAITING_VIDEO with a banner
    and sends a video; the job fails because the download fails, because
    the transcode times out, because the transcoder exits with an error,
    or because an edit of the progress message raises.  Each time the user
    is busy no more and the banner is gone, from the session and from the
    disk, but the state is left at PROCESSING; only the delivered job ends
    in IDLE. *)
Theorem failed_job_leaves_state_processing :
  let after env := exec (handle_video env 7 video_message) ready in
  video_rejection 7 ready = None /\
  left_in_processing (after download_fails_env) /\
  left_in_processing (after timeout_env) /\
  left_in_processing (after transcode_fails_env) /\
  left_in_processing (after edit_raises_env) /\
  user_states (after (success_env 5000)) !! 7 = Some IDLE.
Proof. vm_compute. repeat split; reflexivity. Qed.

(** A rejected video changes nothing but the trace. *)
Lemma handle_video_rejected env user_id message w n :
  video_rejection user_id w = Some n ->
  handle_video env user_id message w = reply_text env n w /\
  same_session w (exec (handle_video env user_id message) w) /\
  files (exec (handle_video env user_id message) w) = files w /\
  Forall no_download (new_events w (exec (handle_video env user_id message) w)).
Proof.
  intros H. unfold exec, handle_video. rewrite H. split; [reflexivity|].
  unfold reply_text, channel.
  destruct (chan_raises env _); simpl; rewrite new_events_emit;
    (split; [unfold same_session; simpl; tauto|]; split; [reflexivity|]);
    by repeat constructor.
Qed.

(** C2 at the failing inputs: the same four failures.  The error counter
    is 0 before each; it is still 0 after the failed download and after
    the timeout, and 1 after the failed transcode and after the unexpected
    exception. *)
Theorem failed_download_and_timeout_not_counted :
  let errors env := errors_count (stats (exec (handle_video env 7 video_message) ready)) in
  errors_count (stats ready) = 0 /\
  errors download_fails_env = 0 /\
  errors timeout_env = 0 /\
  errors transcode_fails_env = 1 /\
  errors edit_raises_env = 1.
Proof. vm_compute. repeat split; reflexivity. Qed.

(** ** Taking a video *)







(* ===================================================================== *)
(** * Further properties of the resource tracker and of the downloader *)
(* ===================================================================== *)

Lemma release_files env file_path w q :
  files (release env file_path w) !! q
  = if bool_decide (file_path = Some q) && truthy q
       && bool_decide (is_Some (files w !! q)) && negb (unlink_raises env q)
    then None else files w !! q.
Proof.
  unfold release. destruct file_path as [p|]; [|done].
  destruct (decide (p = q)) as [->|Hne].
  - rewrite (bool_decide_true (Some q = Some q)) by done. simpl.
    destruct (truthy q && bool_decide (is_Some (files w !! q))); simpl; [|done].
    destruct (unlink_raises env q); simpl; [done | apply lookup_delete_eq].
  - rewrite (bool_decide_false (Some p = Some q)) by congruence. simpl.
    destruct (truthy p && bool_decide (is_Some (files w !! p))); simpl; [|done].
    destruct (unlink_raises env p); simpl; [done | by apply lookup_delete_ne].
Qed.

Lemma release_files_gone_or_same env file_path w q :
  files (release env file_path w) !! q = None \/
  files (release env file_path w) !! q = files w !! q.
Proof. rewrite release_files. destruct (_ && _); auto. Qed.

Lemma cleanup_temp_files_exec_cons env file_path rest w :
  exec (cleanup_temp_files env (file_path :: rest)) w
  = exec (cleanup_temp_files env rest) (release env file_path w).
Proof. unfold exec. by rewrite cleanup_temp_files_cons. Qed.

Lemma cleanup_temp_files_gone_or_same env file_paths w q :
  files (exec (cleanup_temp_files env file_paths) w) !! q = None \/
  files (exec (cleanup_temp_files env file_paths) w) !! q = files w !! q.
Proof.
  revert w. induction file_paths as [|o rest IH]; intros w; [by right|].
  rewrite cleanup_temp_files_exec_cons.
  destruct (IH (release env o w)) as [H|H]; [by left|].
  rewrite H. apply release_files_gone_or_same.
Qed.

(** X1. [cleanup_temp_files] is best effort: it never raises and leaves
    the session alone; every path it is given that is not the empty
    string and on which [os.unlink] does not raise is gone afterwards,
    whatever happens on the other paths; a path it is not given keeps its
    file, and no file is created or resized. *)
Theorem cleanup_temp_files_best_effort env file_paths w :
  let w' := exec (cleanup_temp_files env file_paths) w in
  outcome (cleanup_temp_files env file_paths) w = Ok tt /\
  same_session w w' /\
  (forall p, Some p ∈ file_paths -> p <> EmptyString -> unlink_raises env p = false ->
     files w' !! p = None) /\
  (forall q, Some q ∉ file_paths -> files w' !! q = files w !! q) /\
  (forall q, files w' !! q = None \/ files w' !! q = files w !! q).
Proof.
  simpl. split; [apply cleanup_temp_files_returns|].
  split; [by apply (stable_cleanup_temp_files (R := same_session))|].
  split; [|split; [|intros q; apply cleanup_temp_files_gone_or_same]].
  - revert w. induction file_paths as [|o rest IH]; intros w p Hin Hne Hun.
    { by apply not_elem_of_nil in Hin. }
    rewrite cleanup_temp_files_exec_cons.
    apply elem_of_cons in Hin as [<-|Hin]; [|by apply IH].
    destruct (cleanup_temp_files_gone_or_same env rest (release env (Some p) w) p)
      as [H|H]; [exact H|].
    rewrite H. by destruct (release_gone env p w Hne) as [?|?]; [|congruence].
  - revert w. induction file_paths as [|o rest IH]; intros w q Hq; [done|].
    rewrite cleanup_temp_files_exec_cons.
    apply not_elem_of_cons in Hq as [Hne Hq].
    rewrite (IH _ _ Hq), release_files.
    by rewrite (bool_decide_false (o = Some q)) by congruence.
Qed.

(** Three paths, of which the second cannot be unlinked. *)
Lemma cleanup_temp_files_best_effort_witness :
  let env := stubborn_env in
  let w' := exec (cleanup_temp_files env [Some "a"; Some "b"; Some "c"]) four_files in
  files w' !! "a" = None /\ files w' !! "c" = None /\
  files w' !! "d" = files four_files !! "d".
Proof.
  intros env w'.
  destruct (cleanup_temp_files_best_effort env [Some "a"; Some "b"; Some "c"] four_files)
    as (_ & _ & H1 & H2 & _).
  split; [|split].
  - apply H1; [apply list_elem_of_here | discriminate | reflexivity].
  - apply H1; [do 2 apply list_elem_of_further; apply list_elem_of_here
              | discriminate | reflexivity].
  - apply H2. intros H.
    repeat (apply elem_of_cons in H as [H|H]; [discriminate|]).
    by apply not_elem_of_nil in H.
Defined.

Lemma ui_sink_stable (P : event -> Prop) sink :
  (forall e, ui_event e = true -> P e) -> ui_sink sink -> sink_stable (extends P) sink.
Proof.
  intros HP Hs. destruct sink as [callback|]; [|exact I]. intros x w.
  eapply extends_mono; [exact HP | apply Hs].
Qed.

(** X2. Without a user client [smart_download] is the attempt over the
    bot API and nothing else: same result, same world; with a sink that
    only edits messages it calls the primary transport nowhere and does
    not sleep. *)
Theorem smart_download_without_user_client env message path sink w :
  user_client w = false ->
  smart_download env message path sink w
    = _download_with_bot_api env message path sink (emit (EnterDownload path) w) /\
  (ui_sink sink ->
     Forall (fun e => primary_call e = false /\ is_sleep e = false)
            (new_events w (exec (smart_download env message path sink) w))).
Proof.
  intros Hc.
  assert (Heq : smart_download env message path sink w
    = _download_with_bot_api env message path sink (emit (EnterDownload path) w)).
  { unfold smart_download, bind, modify, try_except, gets, ret. simpl. rewrite Hc.
    destruct (_download_with_bot_api_total env message path sink
                (emit (EnterDownload path) w)) as [b Hb].
    unfold outcome in Hb.
    destruct (_download_with_bot_api env message path sink _) as [r w1].
    simpl in Hb. by subst r. }
  split; [exact Heq|]. intros Hs.
  apply extends_new_events. unfold exec. rewrite Heq.
  eapply (frame_trans (R := extends _)); [by apply (frame_emit (EnterDownload path) w)|].
  apply (stable__download_with_bot_api (R := extends _)).
  - intros e He. by destruct e.
  - apply ui_sink_stable; [|exact Hs]. intros e He. by destruct e as [| | | | |[]| | | | | | | | | |].
Qed.

(** A download over the bot API alone. *)
Lemma smart_download_without_user_client_witness :
  smart_download (drive_env (insert "dst" 2048)) video_message "dst" None (bot_init false ∅)
  = _download_with_bot_api (drive_env (insert "dst" 2048)) video_message "dst" None
      (emit (EnterDownload "dst") (bot_init false ∅)) /\
  Forall (fun e => primary_call e = false /\ is_sleep e = false)
    (new_events (bot_init false ∅)
       (exec (smart_download (drive_env (insert "dst" 2048)) video_message "dst" None)
             (bot_init false ∅))).
Proof.
  destruct (smart_download_without_user_client (drive_env (insert "dst" 2048))
              video_message "dst" None (bot_init false ∅)) as [H1 H2]; [reflexivity|].
  split; [exact H1 | apply H2; exact I].
Defined.

(** X3. When the attempt over the user client succeeds, [smart_download]
    returns at once with its world: the destination holds a file that is
    not empty, and (with a sink that only edits messages) the bot API has
    not been called. *)
Theorem smart_download_primary_success env message path sink w w1 :
  user_client w = true ->
  _download_with_user_client env message path sink (emit (EnterDownload path) w)
    = (Ok true, w1) ->
  smart_download env message path sink w = (Ok true, w1) /\
  nonempty_at path w1 /\
  (ui_sink sink -> Forall (fun e => secondary_call e = false) (new_events w w1)).
Proof.
  intros Hc Hp. split; [|split].
  - unfold smart_download, bind, modify, try_except, gets, ret. simpl.
    by rewrite Hc, Hp.
  - eapply _download_with_user_client_true, Hp.
  - intros Hs. apply extends_new_events.
    eapply (frame_trans (R := extends _)); [by apply (frame_emit (EnterDownload path) w)|].
    assert (H : stable (extends (fun e => secondary_call e = false))
                  (_download_with_user_client env message path sink)).
    { apply (stable__download_with_user_client (R := extends _)).
      - intros e He. by destruct e.
      - apply ui_sink_stable; [|exact Hs]. intros e He.
        by destruct e as [| | | | |[]| | | | | | | | | |]. }
    specialize (H (emit (EnterDownload path) w)). unfold exec in H. by rewrite Hp in H.
Qed.

(** The video streamed by the user client. *)
Lemma smart_download_primary_success_witness :
  let sink := Some (smart_progress progress_env) in
  let w1 := exec (_download_with_user_client progress_env video_message "temp/video.mp4" sink)
                 (emit (EnterDownload "temp/video.mp4") ready_client) in
  smart_download progress_env video_message "temp/video.mp4" sink ready_client
    = (Ok true, w1) /\
  nonempty_at "temp/video.mp4" w1 /\
  Forall (fun e => secondary_call e = false) (new_events ready_client w1).
Proof.
  intros sink w1.
  destruct (smart_download_primary_success progress_env video_message "temp/video.mp4"
              sink ready_client w1) as (H1 & H2 & H3).
  - reflexivity.
  - unfold w1, exec.
    rewrite (surjective_pairing (_download_with_user_client _ _ _ _ _)) at 1.
    f_equal.
  - split; [exact H1|]. split; [exact H2|]. apply H3, smart_progress_ui_sink.
Defined.

(** X4. The bot API fetches the video of the message if it has one, else
    its document, else the last of its photo sizes.  A message with none
    of the three, or whose file id is empty, is answered with [False]
    and no call at all; otherwise the first call is [get_file] on that
    id. *)
Theorem bot_api_file_choice env message path sink w :
  (forall v, video message = Some v -> select_file_id message = Some (file_id v)) /\
  (forall d, video message = None -> document message = Some d ->
     select_file_id message = Some (file_id d)) /\
  (forall l x, video message = None -> document message = None ->
     photo message = l ++ [x] -> select_file_id message = Some (file_id x)) /\
  (video message = None -> document message = None -> photo message = [] ->
     select_file_id message = None) /\
  (select_file_id message = None \/ select_file_id message = Some EmptyString ->
     _download_with_bot_api env message path sink w = (Ok false, w)) /\
  (forall id, select_file_id message = Some id -> id <> EmptyString -> ui_sink sink ->
     exists l, new_events w (exec (_download_with_bot_api env message path sink) w)
               = GetFile id :: l).
Proof.
  unfold select_file_id.
  split; [intros v ->; done|]. split; [intros d -> ->; done|].
  split; [intros l x -> -> ->; by rewrite last_snoc|].
  split; [intros -> -> ->; done|]. split.
  - unfold _download_with_bot_api, select_file_id, try_except.
    intros [->| ->]; [done|]. by unfold truthy.
  - intros id Hsel Hne Hs. fold (select_file_id message) in Hsel.
    assert (Hex : extends (fun _ => True) (emit (GetFile id) w)
                    (exec (_download_with_bot_api env message path sink) w)).
    { assert (Hst : stable (extends (fun _ => True))
                (try_except
                   ((if get_file_raises env then raise TelegramError else ret tt) ;;;
                    download_to_drive env path ;;;
                    (match sink with
                     | Some callback => callback (Q2Qc (inject_Z 100))
                     | None => ret tt
                     end) ;;;
                    exists_nonempty path)
                   (fun _ => log_line ;;; ret false))).
      { unfold download_to_drive, log_line.
        repeat first [ stable_step | by apply stable_emit ].
        by apply (ui_sink_stable (fun _ => True) (Some m)). }
      specialize (Hst (emit (GetFile id) w)).
      replace (exec (_download_with_bot_api env message path sink) w)
        with (exec (try_except
                   ((if get_file_raises env then raise TelegramError else ret tt) ;;;
                    download_to_drive env path ;;;
                    (match sink with
                     | Some callback => callback (Q2Qc (inject_Z 100))
                     | None => ret tt
                     end) ;;;
                    exists_nonempty path)
                   (fun _ => log_line ;;; ret false)) (emit (GetFile id) w)); [exact Hst|].
      unfold exec, _download_with_bot_api. rewrite Hsel.
      unfold truthy. rewrite bool_decide_true by done. simpl.
      unfold try_except, get_file, bind, modify. simpl.
      by destruct (get_file_raises env). }
    destruct Hex as (l & E & _). exists l. unfold new_events. rewrite E. simpl.
    rewrite <- app_assoc. by rewrite drop_app_length.
Qed.

(** A photo in two sizes is fetched in its last size. *)
Lemma bot_api_file_choice_witness :
  select_file_id photo_message = Some "ph-large" /\
  exists l, new_events waiting_banner
              (exec (_download_with_bot_api banner_ok_env photo_message "temp/banner.jpg" None)
                    waiting_banner)
            = GetFile "ph-large" :: l.
Proof.
  destruct (bot_api_file_choice banner_ok_env photo_message "temp/banner.jpg" None
              waiting_banner) as (_ & _ & H3 & _ & _ & H6).
  split.
  - apply (H3 [ {| file_id := "ph-small"; file_size := 100 |} ]
              {| file_id := "ph-large"; file_size := 2048 |}); reflexivity.
  - apply H6; [reflexivity | discriminate | exact I].
Defined.

(** ** Progress sinks *)

(** X5. The two progress sinks are safe to hand to the downloader: for
    every progress value and whatever the message channel does, they
    return normally, leave the session and the files as they are, and add
    at most one edit of the progress message to the trace.  The sink of
    the video edits on every call; the sink of the banner edits only when
    [int(progress) % 25 == 0] and otherwise does nothing at all. *)
Theorem progress_sinks_are_safe env x w :
  (outcome (smart_progress env x) w = Ok tt /\
   same_session w (exec (smart_progress env x) w) /\
   files (exec (smart_progress env x) w) = files w /\
   (new_events w (exec (smart_progress env x) w) = [EditText (Downloading (py_int x))] \/
    new_events w (exec (smart_progress env x) w)
      = [Failed (EditText (Downloading (py_int x)))])) /\
  (outcome (progress_callback env x) w = Ok tt /\
   same_session w (exec (progress_callback env x) w) /\
   files (exec (progress_callback env x) w) = files w /\
   (py_int x `mod` 25 <> 0 -> exec (progress_callback env x) w = w) /\
   (py_int x `mod` 25 = 0 ->
      new_events w (exec (progress_callback env x) w) = [EditText (BannerProgress (py_int x))] \/
      new_events w (exec (progress_callback env x) w)
        = [Failed (EditText (BannerProgress (py_int x)))])) /\
  ui_sink (Some (smart_progress env)) /\ ui_sink (Some (progress_callback env)).
Proof.
  split; [|split; [|split; [apply smart_progress_ui_sink | apply progress_callback_ui_sink]]].
  - unfold outcome, exec, smart_progress, try_except, edit_text, channel.
    destruct (chan_raises env _); simpl; rewrite new_events_emit;
      (split; [done|]; split; [unfold same_session; simpl; tauto|]; split; [done | auto]).
  - unfold outcome, exec, progress_callback.
    destruct (decide (py_int x `mod` 25 = 0)) as [Hm|Hm].
    + unfold try_except, edit_text, channel.
      destruct (chan_raises env _); simpl; rewrite new_events_emit;
        (split; [done|]; split; [unfold same_session; simpl; tauto|];
         split; [done|]; split; [done | auto]).
    + simpl. split; [done|]. split; [apply frame_refl|]. split; [done|].
      split; [done | intros; contradiction].
Qed.

(** At 50 percent the banner sink edits, at 51 it does not. *)
Lemma progress_sinks_are_safe_witness :
  new_events waiting_banner
    (exec (progress_callback banner_ok_env (Q2Qc (inject_Z 50))) waiting_banner)
    = [EditText (BannerProgress 50)] /\
  exec (progress_callback banner_ok_env (Q2Qc (inject_Z 51))) waiting_banner
    = waiting_banner.
Proof.
  split.
  - destruct (progress_sinks_are_safe banner_ok_env (Q2Qc (inject_Z 50)) waiting_banner)
      as (_ & (_ & _ & _ & _ & H) & _).
    destruct H as [H|H]; [reflexivity | exact H |]. vm_compute in H. discriminate.
  - destruct (progress_sinks_are_safe banner_ok_env (Q2Qc (inject_Z 51)) waiting_banner)
      as (_ & (_ & _ & _ & H & _) & _).
    apply H. vm_compute. discriminate.
Defined.

(* ===================================================================== *)
(** * Further properties of the handlers *)
(* ===================================================================== *)

(** ** What a handler does to the other users and to the busy flags *)

#[global] Instance others_untouched_frame user_id :
  Frame (others_untouched user_id) (fun _ => True).
Proof.
  split.
  - by intros w other _.
  - intros a b c H1 H2 other Hne.
    destruct (H1 other Hne) as (?&?&?), (H2 other Hne) as (?&?&?).
    repeat split; congruence.
  - by intros e w _ other _.
  - by intros f w other _.
Qed.

#[global] Instance busy_unchanged_frame : Frame busy_unchanged (fun _ => True).
Proof.
  split.
  - by intros w.
  - intros a b c H1 H2. unfold busy_unchanged in *. congruence.
  - by intros e w _.
  - by intros f w.
Qed.

(** An update of the session at [user_id] leaves the others alone. *)
Ltac others_modify :=
  let w := fresh "w" in let other := fresh "other" in let Hne := fresh "Hne" in
  intros w other Hne; simpl;
  rewrite ?lookup_insert_ne, ?lookup_delete_ne by congruence; done.

(** The collaborators and the downloader, for a frame that admits every
    event. *)
Ltac stable_calls :=
  first
    [ apply stable_channel; exact I
    | apply stable_log_line; exact I
    | apply stable_NamedTemporaryFile; intros; exact I
    | apply stable_cleanup_temp_files; exact I
    | apply stable_smart_download;
        [ intros; exact I | intros; exact I | exact I
        | intros ?; first [ apply stable_smart_progress | apply stable_progress_callback ];
          intros; exact I ]
    | apply stable_emit; exact I ].

Lemma others_untouched_run_job env user_id message :
  stable (others_untouched user_id) (run_job env user_id message).
Proof.
  unfold run_job, job_body, job_except, job_finally, send_result, reply_text, edit_text,
    run_ffmpeg_ultra_fast.
  repeat first [ stable_calls | apply stable_modify; others_modify | stable_step ].
Qed.

Lemma others_untouched_handle_video env user_id message :
  stable (others_untouched user_id) (handle_video env user_id message).
Proof.
  intros w. unfold exec, handle_video.
  destruct (video_rejection user_id w) as [n|].
  - by apply (stable_channel env (ReplyText n)).
  - eapply (frame_trans (R := others_untouched user_id));
      [|apply others_untouched_run_job].
    intros other Hne. simpl. rewrite !lookup_insert_ne by congruence. done.
Qed.

Lemma others_untouched_handle_banner env user_id message :
  stable (others_untouched user_id) (handle_banner env user_id message).
Proof.
  unfold handle_banner, reply_text, edit_text.
  repeat first [ stable_calls | apply stable_modify; others_modify | stable_step ].
Qed.

Lemma others_untouched_start_command env user_id :
  stable (others_untouched user_id) (start_command env user_id).
Proof.
  unfold start_command, reply_text.
  repeat first [ stable_calls | apply stable_modify; others_modify | stable_step ].
Qed.

Lemma others_untouched_handle_wrong_content env calls user_id :
  stable (others_untouched user_id) (handle_wrong_content env calls user_id).
Proof.
  unfold handle_wrong_content, reply_text.
  repeat first [ stable_calls | stable_step ].
Qed.

Lemma others_untouched_handle_document env lower calls user_id message meta :
  stable (others_untouched user_id) (handle_document env lower calls user_id message meta).
Proof.
  unfold handle_document.
  repeat first
    [ apply others_untouched_handle_video | apply others_untouched_handle_banner
    | apply others_untouched_handle_wrong_content | stable_step ].
Qed.

Lemma others_untouched_button_callback env calls user_id data :
  stable (others_untouched user_id) (button_callback env calls user_id data).
Proof.
  unfold button_callback, edit_text.
  repeat first [ stable_calls | apply stable_modify; others_modify | stable_step ].
Qed.

(** X6. A handler that serves one user never touches another: state,
    stored banner and busy flag of every other user are the same before
    and after [start_command], [handle_banner], [handle_video],
    [handle_document], [handle_wrong_content] and [button_callback],
    whatever the collaborators do. *)
Theorem handlers_leave_other_users_alone env lower calls user_id message meta data w :
  others_untouched user_id w (exec (start_command env user_id) w) /\
  others_untouched user_id w (exec (handle_banner env user_id message) w) /\
  others_untouched user_id w (exec (handle_video env user_id message) w) /\
  others_untouched user_id w (exec (handle_document env lower calls user_id message meta) w) /\
  others_untouched user_id w (exec (handle_wrong_content env calls user_id) w) /\
  others_untouched user_id w (exec (button_callback env calls user_id data) w).
Proof.
  split; [apply others_untouched_start_command|].
  split; [apply others_untouched_handle_banner|].
  split; [apply others_untouched_handle_video|].
  split; [apply others_untouched_handle_document|].
  split; [apply others_untouched_handle_wrong_content|].
  apply others_untouched_button_callback.
Qed.

(** The job of user 7 leaves user 8 in WAITING_BANNER. *)
Lemma handlers_leave_other_users_alone_witness :
  user_states (exec (handle_video (success_env 5000) 7 video_message) two_users) !! 8
  = Some WAITING_BANNER.
Proof.
  destruct (handlers_leave_other_users_alone (success_env 5000) id some_calls 7
              video_message png_meta "stats" two_users) as (_ & _ & H & _).
  destruct (H 8) as (H1 & _); [discriminate|]. rewrite H1. reflexivity.
Defined.









(** ** Temporary files of a job *)

#[global] Instance no_new_temp_file_frame : Frame no_new_temp_file no_temp_file.
Proof.
  split.
  - intros w. split; [done | apply (frame_refl (R := extends _))].
  - intros a b c [[Ev1 Eo1] X1] [[Ev2 Eo2] X2]. split; [split; congruence|].
    by apply (frame_trans (R := extends _) a b c).
  - intros e w He. split; [done | by apply (frame_emit (R := extends _))].
  - intros f w. split; [done | apply (frame_files (R := extends _))].
Qed.

Lemma no_new_temp_file_tracked w0 w1 w2 :
  temp_files_tracked w0 w1 -> no_new_temp_file w1 w2 -> temp_files_tracked w0 w2.
Proof.
  intros (l0 & E0 & Ht) [[Ev Eo] (l & E & Hl)]. exists (l0 ++ l).
  split; [by rewrite E, E0, app_assoc|]. intros name Hin.
  apply elem_of_app in Hin as [Hin|Hin].
  - rewrite Ev, Eo. by apply Ht.
  - rewrite Forall_forall in Hl. destruct (Hl _ Hin).
Qed.

Lemma stable_job_except_no_new_temp_file env e :
  stable no_new_temp_file (job_except env e).
Proof.
  unfold job_except, reply_text.
  repeat first [ apply stable_channel; exact I | apply stable_log_line; exact I
               | apply stable_modify; intros; split; [done | by apply extends_quiet]
               | stable_step ].
Qed.

Lemma wp_no_new_temp_file env w0 w1 (m : M unit) :
  temp_files_tracked w0 w1 -> stable no_new_temp_file m ->
  wp m (except_wp (job_except env) (fun _ w' => temp_files_tracked w0 w')) w1.
Proof.
  intros Ht Hm. unfold wp, except_wp. specialize (Hm w1).
  destruct (outcome m w1) as [[]|e].
  - eapply no_new_temp_file_tracked; eauto.
  - eapply no_new_temp_file_tracked; [eapply no_new_temp_file_tracked; eauto|].
    apply stable_job_except_no_new_temp_file.
Qed.

Lemma wp_job_except_tracked env e w0 w1 :
  temp_files_tracked w0 w1 ->
  wp (job_except env e) (fun _ w' => temp_files_tracked w0 w') w1.
Proof.
  intros Ht. eapply no_new_temp_file_tracked; [exact Ht|].
  apply stable_job_except_no_new_temp_file.
Qed.

Lemma job_tracks_temp_files env user_id message w0 :
  temp_files_tracked w0
    (exec (try_except (job_body env user_id message) (job_except env)) w0).
Proof.
  change (wp (try_except (job_body env user_id message) (job_except env))
             (fun _ w' => temp_files_tracked w0 w') w0).
  wp_step. unfold job_body.
  destruct (video_payload message) as [payload|].
  2: { apply wp_no_new_temp_file; [exists []; split; [by rewrite app_nil_r | by intros ? ?%not_elem_of_nil]|].
       by apply stable_channel. }
  destruct (decide _).
  { apply wp_no_new_temp_file; [exists []; split; [by rewrite app_nil_r | by intros ? ?%not_elem_of_nil]|].
    by apply stable_channel. }
  wp_step. apply wp_channel; intros Hc; unfold then_wp; cbv beta iota.
  { apply wp_job_except_tracked. exists [Failed (ReplyText Started)].
    split; [done|]. intros name Hin.
    apply elem_of_cons in Hin as [Hin|Hin]; [discriminate|].
    by apply not_elem_of_nil in Hin. }
  wp_step. apply wp_NamedTemporaryFile; [intros video_temp Hn1 | intros Hn1];
    unfold then_wp; cbv beta iota.
  2: { apply wp_job_except_tracked.
       exists [ReplyText Started; Failed (TempFile EmptyString)].
       split; [simpl; by rewrite <- app_assoc|]. intros name Hin.
       repeat (apply elem_of_cons in Hin as [Hin|Hin]; [discriminate|]).
       by apply not_elem_of_nil in Hin. }
  do 2 wp_step.
  wp_step. apply wp_NamedTemporaryFile; [intros output_temp Hn2 | intros Hn2];
    unfold then_wp; cbv beta iota.
  2: { apply wp_job_except_tracked.
       exists [ReplyText Started; TempFile video_temp; Failed (TempFile EmptyString)].
       split; [simpl; by rewrite <- !app_assoc|]. intros name Hin.
       apply elem_of_cons in Hin as [Hin|Hin]; [discriminate|].
       apply elem_of_cons in Hin as [[= ->]|Hin]; [by left|].
       apply elem_of_cons in Hin as [Hin|Hin]; [discriminate|].
       by apply not_elem_of_nil in Hin. }
  do 2 wp_step.
  apply wp_no_new_temp_file.
  { exists [ReplyText Started; TempFile video_temp; TempFile output_temp].
    split; [simpl; by rewrite <- !app_assoc|]. intros name Hin.
    apply elem_of_cons in Hin as [Hin|Hin]; [discriminate|].
    apply elem_of_cons in Hin as [[= ->]|Hin]; [by left|].
    apply elem_of_cons in Hin as [[= ->]|Hin]; [by right|].
    by apply not_elem_of_nil in Hin. }
  unfold reply_text, edit_text, run_ffmpeg_ultra_fast, send_result.
  repeat first
    [ apply stable_channel; exact I
    | apply stable_smart_download;
        [ intros [] ?; (exact I || discriminate)
        | intros [] ?; (exact I || discriminate)
        | exact I
        | intros x; apply stable_smart_progress; intros; exact I ]
    | apply stable_emit; exact I
    | apply stable_modify; intros; split; [done | by apply extends_quiet]
    | stable_step ].
Qed.

Lemma job_finally_removes env user_id w name :
  video_path w = Some name \/ output_path w = Some name ->
  name <> EmptyString -> unlink_raises env name = false ->
  files (exec (job_finally env user_id) w) !! name = None.
Proof.
  intros Hp Hne Hun.
  change (wp (job_finally env user_id) (fun _ w' => files w' !! name = None) w).
  unfold job_finally. do 6 wp_step. simpl.
  set (w1 := release env (output_path w) (release env (video_path w) w)).
  assert (H1 : files w1 !! name = None).
  { unfold w1. destruct Hp as [Hp|Hp]; rewrite Hp.
    - destruct (release_files_gone_or_same env (output_path w)
                  (release env (Some name) w) name) as [H|H]; [exact H|].
      rewrite H. by destruct (release_gone env name w Hne) as [?|?]; [|congruence].
    - by destruct (release_gone env name (release env (video_path w) w) Hne)
        as [?|?]; [|congruence]. }
  do 2 wp_step.
  destruct (user_banners w1 !! user_id) as [p|].
  - repeat wp_step. simpl.
    assert (H2 : files (release env (Some p) w1) !! name = None).
    { destruct (release_files_gone_or_same env (Some p) w1 name) as [H|H]; congruence. }
    by destruct (processing_users _ !! user_id); wp_step.
  - repeat wp_step. by destruct (processing_users _ !! user_id); wp_step.
Qed.

(** X8. [handle_video] leaves no temporary file of its own behind: a
    file it created with [NamedTemporaryFile] is gone when the handler
    is left, however the job ended (rejection, failed download, timeout,
    an exception in the middle), provided [os.unlink] does not raise on
    it. *)
Theorem handle_video_removes_its_temp_files env user_id message w name :
  TempFile name ∈ new_events w (exec (handle_video env user_id message) w) ->
  name <> EmptyString -> unlink_raises env name = false ->
  files (exec (handle_video env user_id message) w) !! name = None.
Proof.
  intros Hin Hne Hun. unfold exec, handle_video in *.
  destruct (video_rejection user_id w) as [n|].
  - exfalso. revert Hin. unfold reply_text, channel.
    destruct (chan_raises env _); simpl; rewrite new_events_emit; intros Hin;
      (apply elem_of_cons in Hin as [Hin|Hin]; [discriminate|]);
      by apply not_elem_of_nil in Hin.
  - fold (exec (run_job env user_id message) (start_job user_id w)) in *.
    rewrite run_job_exec in *.
    set (w1 := exec (try_except (job_body env user_id message) (job_except env))
                    (start_job user_id w)) in *.
    destruct (job_tracks_temp_files env user_id message (start_job user_id w))
      as (l & E & Ht). fold w1 in E, Ht.
    destruct (stable_job_finally (fun e => e = LogLine) env user_id eq_refl w1)
      as (l2 & E2 & Hl2).
    apply job_finally_removes; [|done..]. apply Ht.
    unfold new_events in Hin. rewrite E2, E in Hin. simpl in Hin.
    rewrite <- app_assoc, drop_app_length in Hin.
    apply elem_of_app in Hin as [Hin|Hin]; [exact Hin|].
    rewrite Forall_forall in Hl2. by specialize (Hl2 _ Hin).
Qed.

(** The second temporary file cannot be created: the first is removed. *)
Lemma handle_video_removes_its_temp_files_witness :
  files (exec (handle_video second_temp_fails_env 7 video_message) ready)
    !! "temp/video.mp4" = None.
Proof.
  apply (handle_video_removes_its_temp_files second_temp_fails_env 7 video_message ready).
  - vm_compute. apply list_elem_of_further, list_elem_of_here.
  - discriminate.
  - reflexivity.
Defined.

(** ** Statistics across the handlers *)

Lemma ftime_le_refl (a : ftime) : ftime_le a a.
Proof. destruct a; simpl; [apply Qcle_refl | exact I]. Qed.

Lemma ftime_le_trans (a b c : ftime) : ftime_le a b -> ftime_le b c -> ftime_le a c.
Proof.
  destruct a, b, c; simpl; try tauto. apply Qcle_trans.
Qed.

#[global] Instance stats_only_grow_frame : Frame stats_only_grow (fun _ => True).
Proof.
  split.
  - intros w. unfold stats_only_grow.
    repeat split; try lia; [apply Qcle_refl | apply ftime_le_refl].
  - intros a b c (A1 & A2 & A3 & A4 & A5) (B1 & B2 & B3 & B4 & B5).
    unfold stats_only_grow. repeat split; try lia.
    + eapply Qcle_trans; eassumption.
    + eapply ftime_le_trans; eassumption.
  - intros e w _. unfold stats_only_grow. simpl.
    repeat split; try lia; [apply Qcle_refl | apply ftime_le_refl].
  - intros f w. unfold stats_only_grow. simpl.
    repeat split; try lia; [apply Qcle_refl | apply ftime_le_refl].
Qed.

#[global] Instance only_errors_counted_frame : Frame only_errors_counted (fun _ => True).
Proof.
  split.
  - intros w. unfold only_errors_counted. repeat split; lia.
  - intros a b c (A1 & A2 & A3 & A4 & A5) (B1 & B2 & B3 & B4 & B5).
    unfold only_errors_counted. repeat split; try congruence; lia.
  - intros e w _. unfold only_errors_counted. simpl. repeat split; lia.
  - intros f w. unfold only_errors_counted. simpl. repeat split; lia.
Qed.

Lemma only_errors_counted_grow w w' : only_errors_counted w w' -> stats_only_grow w w'.
Proof.
  intros (E1 & E2 & E3 & E4 & E5). unfold stats_only_grow.
  rewrite E1, E2, E3, E4.
  repeat split; try lia; [apply Qcle_refl | apply ftime_le_refl].
Qed.

(** A step that leaves the statistics alone, or counts one error. *)
Ltac errors_modify :=
  intros; unfold only_errors_counted; simpl; repeat split; lia.

Lemma only_errors_counted_handle_banner env user_id message :
  stable only_errors_counted (handle_banner env user_id message).
Proof.
  unfold handle_banner, reply_text, edit_text.
  repeat first [ stable_calls | apply stable_modify; errors_modify | stable_step ].
Qed.

Lemma only_errors_counted_start_command env user_id :
  stable only_errors_counted (start_command env user_id).
Proof.
  unfold start_command, reply_text.
  repeat first [ stable_calls | apply stable_modify; errors_modify | stable_step ].
Qed.

Lemma only_errors_counted_handle_wrong_content env calls user_id :
  stable only_errors_counted (handle_wrong_content env calls user_id).
Proof.
  unfold handle_wrong_content, reply_text.
  repeat first [ stable_calls | stable_step ].
Qed.

Lemma only_errors_counted_button_callback env calls user_id data :
  stable only_errors_counted (button_callback env calls user_id data).
Proof.
  unfold button_callback, edit_text.
  repeat first [ stable_calls | apply stable_modify; errors_modify | stable_step ].
Qed.

Lemma only_errors_counted_error_handler env calls has_message :
  stable only_errors_counted (error_handler env calls has_message).
Proof.
  unfold error_handler, reply_text.
  repeat first [ stable_calls | apply stable_modify; errors_modify | stable_step ].
Qed.

Lemma stats_only_grow_record (t : Qc) size w :
  (0 <= t)%Qc -> stats_only_grow w (set_stats (update_processing_stats t size) w).
Proof.
  intros Ht. unfold stats_only_grow. simpl. rewrite py_max_Zmax.
  repeat split; try lia.
  - rewrite <- (Qcplus_0_r (total_processing_time (stats w))) at 1.
    apply Qcplus_le_compat; [apply Qcle_refl | exact Ht].
  - apply py_min_glb.
Qed.

Lemma stats_only_grow_handle_video env user_id message :
  (0 <= total_time env)%Qc ->
  stable stats_only_grow (handle_video env user_id message).
Proof.
  intros Ht w. unfold exec, handle_video.
  destruct (video_rejection user_id w) as [n|].
  - by apply (stable_channel (R := stats_only_grow) env (ReplyText n)).
  - eapply (frame_trans (R := stats_only_grow)); [apply frame_refl|].
    change (stats_only_grow (start_job user_id w)
              (exec (run_job env user_id message) (start_job user_id w))).
    generalize (start_job user_id w). change (stable stats_only_grow (run_job env user_id message)).
    unfold run_job, job_body, job_except, job_finally, send_result, reply_text, edit_text,
      run_ffmpeg_ultra_fast.
    repeat first
      [ stable_calls
      | apply stable_modify; intros; by apply stats_only_grow_record
      | apply stable_modify; intros; apply only_errors_counted_grow; errors_modify
      | apply stable_modify; intros; apply (frame_refl (R := stats_only_grow))
      | stable_step ].
Qed.

Lemma stats_only_grow_handle_document env lower calls user_id message meta :
  (0 <= total_time env)%Qc ->
  stable stats_only_grow (handle_document env lower calls user_id message meta).
Proof.
  intros Ht. unfold handle_document.
  repeat first
    [ by apply stats_only_grow_handle_video
    | intros w; apply only_errors_counted_grow, only_errors_counted_handle_banner
    | intros w; apply only_errors_counted_grow, only_errors_counted_handle_wrong_content
    | stable_step ].
Qed.

(** X9. The statistics are only ever added to.  Whatever a handler
    does, no counter of [SystemStats] is lower afterwards, the largest
    size is not smaller and the fastest time is not slower (the
    cumulative time as long as the measured duration is not negative).
    Only a video job records a success: [start_command],
    [handle_banner], [handle_wrong_content], [button_callback] and
    [error_handler] leave the figures of the successes as they are. *)
Theorem statistics_only_grow env lower calls user_id message meta data has_message w :
  (0 <= total_time env)%Qc ->
  stats_only_grow w (exec (handle_video env user_id message) w) /\
  stats_only_grow w (exec (handle_document env lower calls user_id message meta) w) /\
  only_errors_counted w (exec (start_command env user_id) w) /\
  only_errors_counted w (exec (handle_banner env user_id message) w) /\
  only_errors_counted w (exec (handle_wrong_content env calls user_id) w) /\
  only_errors_counted w (exec (button_callback env calls user_id data) w) /\
  only_errors_counted w (exec (error_handler env calls has_message) w).
Proof.
  intros Ht.
  split; [by apply stats_only_grow_handle_video|].
  split; [by apply stats_only_grow_handle_document|].
  split; [apply only_errors_counted_start_command|].
  split; [apply only_errors_counted_handle_banner|].
  split; [apply only_errors_counted_handle_wrong_content|].
  split; [apply only_errors_counted_button_callback|].
  apply only_errors_counted_error_handler.
Qed.

(** A job that succeeds in twelve seconds. *)
Lemma statistics_only_grow_witness :
  stats_only_grow ready (exec (handle_video (success_env 5000) 7 video_message) ready).
Proof.
  destruct (statistics_only_grow (success_env 5000) id some_calls 7 video_message
              png_meta "stats" true ready) as [H _]; [|exact H].
  vm_compute. discriminate.
Defined.

(** ** A series of successes *)

Lemma record_all_cons job jobs s :
  record_all (job :: jobs) s
  = record_all jobs (update_processing_stats (fst job) (snd job) s).
Proof. reflexivity. Qed.



(** ** The handlers outside the job *)

Lemma channel_only_call env call w :
  only_call call w (exec (channel env call) w) /\
  same_session w (exec (channel env call) w) /\
  files (exec (channel env call) w) = files w.
Proof.
  unfold only_call, exec, channel.
  destruct (chan_raises env _); simpl; rewrite new_events_emit;
    (split; [auto|]; split; [unfold same_session; simpl; tauto | done]).
Qed.

(** X11. [handle_wrong_content] answers with one reply and changes
    nothing: the reminder that a banner is needed in WAITING_BANNER, that
    a video is needed in WAITING_VIDEO, and the advice to /start in every
    other state, also for a user the bot has never seen. *)
Theorem handle_wrong_content_reply env calls user_id w :
  let w' := exec (handle_wrong_content env calls user_id) w in
  same_session w w' /\ files w' = files w /\
  (user_states w !! user_id = Some WAITING_BANNER ->
     only_call (ReplyText (banner_needed calls)) w w') /\
  (user_states w !! user_id = Some WAITING_VIDEO ->
     only_call (ReplyText (video_needed calls)) w w') /\
  (user_states w !! user_id <> Some WAITING_BANNER ->
   user_states w !! user_id <> Some WAITING_VIDEO ->
     only_call (ReplyText (unknown_state calls)) w w').
Proof.
  simpl. unfold exec, handle_wrong_content, bind, gets, reply_text. simpl.
  destruct (user_states w !! user_id) as [[]|];
    match goal with
    | |- context [channel env ?c w] =>
        destruct (channel_only_call env c w) as (H1 & H2 & H3); unfold exec in H1, H2, H3
    end;
    (split; [exact H2|]; split; [exact H3|]);
    repeat split; intros; try done; try discriminate.
Qed.

(** A user the bot has never seen is told to /start. *)
Lemma handle_wrong_content_reply_witness :
  only_call (ReplyText Unexpected) (bot_init false ∅)
    (exec (handle_wrong_content banner_ok_env some_calls 7) (bot_init false ∅)).
Proof.
  destruct (handle_wrong_content_reply banner_ok_env some_calls 7 (bot_init false ∅))
    as (_ & _ & _ & _ & H).
  apply H; discriminate.
Defined.

Lemma handle_wrong_content_quiet env calls user_id w :
  same_session w (exec (handle_wrong_content env calls user_id) w) /\
  files (exec (handle_wrong_content env calls user_id) w) = files w /\
  Forall no_download (new_events w (exec (handle_wrong_content env calls user_id) w)).
Proof.
  unfold exec, handle_wrong_content, bind, gets, reply_text. simpl.
  destruct (user_states w !! user_id) as [[]|];
    match goal with
    | |- context [channel env ?c w] =>
        destruct (channel_only_call env c w) as (H1 & H2 & H3); unfold exec in H1, H2, H3
    end;
    (split; [exact H2|]; split; [exact H3|]);
    destruct H1 as [-> | ->]; by repeat constructor.
Qed.

(** X12. [handle_document] passes a document on only when the state of
    the user awaits it and its type is supported: to [handle_video] in
    WAITING_VIDEO with a supported video, to [handle_banner] in
    WAITING_BANNER with a supported image.  Every other update (no
    document, another state, an unsupported type) is answered by
    [handle_wrong_content]: the session and the files stay as they are
    and no download is begun. *)
Theorem handle_document_dispatch env lower calls user_id message meta w :
  let w' := exec (handle_document env lower calls user_id message meta) w in
  (document message <> None -> user_states w !! user_id = Some WAITING_VIDEO ->
   _is_supported_video lower meta = true ->
     handle_document env lower calls user_id message meta w
     = handle_video env user_id message w) /\
  (document message <> None -> user_states w !! user_id = Some WAITING_BANNER ->
   _is_supported_image lower meta = true ->
     handle_document env lower calls user_id message meta w
     = handle_banner env user_id message w) /\
  (~ document_accepted lower user_id message meta w ->
     handle_document env lower calls user_id message meta w
     = handle_wrong_content env calls user_id w /\
     same_session w w' /\ files w' = files w) /\
  (download_begun w w' -> document_accepted lower user_id message meta w).
Proof.
  simpl.
  assert (Hv : document message <> None -> user_states w !! user_id = Some WAITING_VIDEO ->
               _is_supported_video lower meta = true ->
               handle_document env lower calls user_id message meta w
               = handle_video env user_id message w).
  { intros Hd Hs Hf. unfold handle_document.
    destruct (document message); [|done].
    unfold bind, gets. simpl. rewrite Hs, Hf.
    by rewrite bool_decide_true by done. }
  assert (Hb : document message <> None -> user_states w !! user_id = Some WAITING_BANNER ->
               _is_supported_image lower meta = true ->
               handle_document env lower calls user_id message meta w
               = handle_banner env user_id message w).
  { intros Hd Hs Hf. unfold handle_document.
    destruct (document message); [|done].
    unfold bind, gets. simpl. rewrite Hs, Hf.
    rewrite (bool_decide_false (Some WAITING_BANNER = Some WAITING_VIDEO)) by discriminate.
    by rewrite bool_decide_true by done. }
  assert (Hw : ~ document_accepted lower user_id message meta w ->
               handle_document env lower calls user_id message meta w
               = handle_wrong_content env calls user_id w).
  { intros Hn. unfold handle_document.
    destruct (document message) as [d|] eqn:Hd; [|done].
    unfold bind at 1. unfold gets at 1. simpl.
    destruct (bool_decide (user_states w !! user_id = Some WAITING_VIDEO)
              && _is_supported_video lower meta) eqn:E1.
    { apply andb_prop in E1 as [E1 E2]. apply bool_decide_eq_true in E1.
      destruct Hn. split; [by rewrite Hd | by left]. }
    destruct (bool_decide (user_states w !! user_id = Some WAITING_BANNER)
              && _is_supported_image lower meta) eqn:E2; [|done].
    apply andb_prop in E2 as [E2 E3]. apply bool_decide_eq_true in E2.
    destruct Hn. split; [by rewrite Hd | by right]. }
  split; [exact Hv|]. split; [exact Hb|].
  destruct (handle_wrong_content_quiet env calls user_id w) as (Q1 & Q2 & Q3).
  split.
  - intros Hn. unfold exec. rewrite (Hw Hn). by split.
  - intros [p Hp].
    destruct (decide (document message <> None)) as [Hd|Hd].
    + destruct (decide (user_states w !! user_id = Some WAITING_VIDEO)) as [H1|H1];
        [destruct (_is_supported_video lower meta) eqn:E1; [by split; [|left]|]|];
        (destruct (decide (user_states w !! user_id = Some WAITING_BANNER)) as [H2|H2];
          [destruct (_is_supported_image lower meta) eqn:E2; [by split; [|right]|]|]).
      all: exfalso; unfold exec in Hp; rewrite Hw in Hp;
        [ rewrite Forall_forall in Q3; apply (Q3 _ Hp)
        | intros [_ [[? ?]|[? ?]]]; congruence ].
    + exfalso. unfold exec in Hp. rewrite Hw in Hp.
      * rewrite Forall_forall in Q3. apply (Q3 _ Hp).
      * by intros [? _].
Qed.

(** A PDF sent while a video is awaited is answered, not downloaded. *)
Lemma handle_document_dispatch_witness :
  handle_document banner_ok_env id some_calls 7 png_document pdf_meta ready
  = handle_wrong_content banner_ok_env some_calls 7 ready.
Proof.
  destruct (handle_document_dispatch banner_ok_env id some_calls 7 png_document pdf_meta ready)
    as (_ & _ & H & _).
  apply H. intros [_ [[_ E]|[E _]]]; vm_compute in E; discriminate.
Defined.

Lemma button_callback_unfold env calls user_id data w :
  button_callback env calls user_id data w
  = if chan_raises env (length (trace w))
    then (Raise TelegramError, emit (Failed (answer calls)) w)
    else if bool_decide (data = "send_banner")
    then channel env (EditText (banner_prompt calls))
           (set_user_states (insert user_id WAITING_BANNER) (emit (answer calls) w))
    else if bool_decide (data = "stats")
    then channel env (EditText (stats_text calls)) (emit (answer calls) w)
    else if bool_decide (data = "help")
    then channel env (EditText (help_text calls)) (emit (answer calls) w)
    else if bool_decide (data = "settings")
    then channel env (EditText (settings_text calls)) (emit (answer calls) w)
    else (Ok tt, emit (answer calls) w).
Proof.
  unfold button_callback, bind, edit_text. unfold channel at 1.
  destruct (chan_raises env (length (trace w))); [done|].
  by repeat case_bool_decide.
Qed.

(** X13. [button_callback] first answers the query; if that raises,
    nothing else happens.  The button "send_banner" then puts the user
    into WAITING_BANNER, whether or not the edit that follows goes
    through, and (unlike /start) keeps a stored banner and its file.  No
    other button changes a state, and data that is none of the four
    known buttons is answered and otherwise ignored.  Statistics,
    banners and files are never touched. *)
Theorem button_callback_cases env calls user_id data w :
  let w' := exec (button_callback env calls user_id data) w in
  stats w' = stats w /\ user_banners w' = user_banners w /\ files w' = files w /\
  (chan_raises env (length (trace w)) = true ->
     outcome (button_callback env calls user_id data) w = Raise TelegramError /\
     user_states w' = user_states w /\ new_events w w' = [Failed (answer calls)]) /\
  (chan_raises env (length (trace w)) = false -> data = "send_banner" ->
     user_states w' = <[user_id := WAITING_BANNER]> (user_states w)) /\
  (data <> "send_banner" -> user_states w' = user_states w) /\
  (chan_raises env (length (trace w)) = false ->
   data ∉ ["send_banner"; "stats"; "help"; "settings"] ->
     outcome (button_callback env calls user_id data) w = Ok tt /\
     new_events w w' = [answer calls]).
Proof.
  simpl. unfold outcome, exec. rewrite button_callback_unfold.
  destruct (chan_raises env (length (trace w))) eqn:Hc.
  { cbn [fst snd]. rewrite new_events_emit. repeat split; intros; try done; discriminate. }
  assert (Hq : forall c, let w1 := emit (answer calls) w in
            stats (channel env c w1).2 = stats w /\
            user_banners (channel env c w1).2 = user_banners w /\
            files (channel env c w1).2 = files w /\
            user_states (channel env c w1).2 = user_states w).
  { intros c w1. unfold channel. by destruct (chan_raises env (length (trace w1))). }
  destruct (decide (data = "send_banner")) as [->|H1].
  { rewrite bool_decide_true by done. unfold channel.
    match goal with |- context [chan_raises env ?n] => destruct (chan_raises env n) end;
      simpl;
      (repeat split; intros; try done; try discriminate);
      match goal with
      | H : _ ∉ _ |- _ => destruct H; apply list_elem_of_here
      end. }
  rewrite (bool_decide_false (data = "send_banner")) by done.
  destruct (decide (data = "stats")) as [->|H2].
  { rewrite bool_decide_true by done.
    destruct (Hq (EditText (stats_text calls))) as (Q1 & Q2 & Q3 & Q4).
    repeat split; intros; try done; try discriminate.
    all: match goal with
    | H : _ ∉ _ |- _ => destruct H; apply list_elem_of_further, list_elem_of_here
    end. }
  rewrite (bool_decide_false (data = "stats")) by done.
  destruct (decide (data = "help")) as [->|H3].
  { rewrite bool_decide_true by done.
    destruct (Hq (EditText (help_text calls))) as (Q1 & Q2 & Q3 & Q4).
    repeat split; intros; try done; try discriminate.
    all: match goal with
    | H : _ ∉ _ |- _ =>
        destruct H; do 2 apply list_elem_of_further; apply list_elem_of_here
    end. }
  rewrite (bool_decide_false (data = "help")) by done.
  destruct (decide (data = "settings")) as [->|H4].
  { rewrite bool_decide_true by done.
    destruct (Hq (EditText (settings_text calls))) as (Q1 & Q2 & Q3 & Q4).
    repeat split; intros; try done; try discriminate.
    all: match goal with
    | H : _ ∉ _ |- _ =>
        destruct H; do 3 apply list_elem_of_further; apply list_elem_of_here
    end. }
  rewrite (bool_decide_false (data = "settings")) by done. cbn [fst snd].
  rewrite new_events_emit. repeat split; intros; try done; discriminate.
Qed.

(** The button "send_banner", pressed by a user whose banner is stored:
    the state goes back to WAITING_BANNER and the banner stays. *)
Lemma button_callback_cases_witness :
  let w' := exec (button_callback banner_ok_env some_calls 7 "send_banner") ready in
  user_states w' = <[7 := WAITING_BANNER]> (user_states ready) /\
  user_banners w' = user_banners ready.
Proof.
  intros w'.
  destruct (button_callback_cases banner_ok_env some_calls 7 "send_banner" ready)
    as (_ & H2 & _ & _ & H5 & _).
  split; [apply H5; reflexivity | exact H2].
Defined.

(** X14. [error_handler] never raises, also when the reply that reports
    the error raises, and counts exactly one error in every case; the
    sessions of the users and the files are left alone.  Without a
    message to reply to it only logs. *)
Theorem error_handler_counts_once env calls has_message w :
  let w' := exec (error_handler env calls has_message) w in
  outcome (error_handler env calls has_message) w = Ok tt /\
  stats w' = count_error (stats w) /\
  user_states w' = user_states w /\ user_banners w' = user_banners w /\
  processing_users w' = processing_users w /\ files w' = files w /\
  (has_message = false -> new_events w w' = [LogLine]) /\
  (has_message = true ->
     new_events w w' = [LogLine; ReplyText (system_error calls)] \/
     new_events w w' = [LogLine; Failed (ReplyText (system_error calls))]).
Proof.
  simpl. unfold outcome, exec, error_handler, bind, log_line, modify, try_except,
    reply_text, channel, ret, new_events. simpl.
  destruct has_message; simpl.
  - destruct (chan_raises env _); simpl;
      rewrite <- app_assoc, drop_app_length; simpl;
      repeat split; intros; try done; auto.
  - rewrite drop_app_length. repeat split; intros; try done.
Qed.

(** The reply that reports the error raises: the error is counted and
    the handler returns. *)
Lemma error_handler_counts_once_witness :
  new_events ready (exec (error_handler reply_raises_env some_calls true) ready)
  = [LogLine; Failed (ReplyText BannerError)] /\
  errors_count (stats (exec (error_handler reply_raises_env some_calls true) ready)) = 1.
Proof.
  destruct (error_handler_counts_once reply_raises_env some_calls true ready)
    as (_ & H2 & _ & _ & _ & _ & _ & H8).
  split.
  - destruct H8 as [H|H]; [reflexivity | vm_compute in H; discriminate | exact H].
  - rewrite H2. reflexivity.
Defined.

(* ===================================================================== *)
(** * Supported formats *)
(* ===================================================================== *)

Lemma split_dot_nonempty s : split_dot s <> [].
Proof.
  destruct s as [|c rest]; simpl; [done|].
  destruct (Ascii.eqb c "."); [done|]. by destruct (split_dot rest).
Qed.

Lemma split_dot_dot_free s : dot_free s = true -> split_dot s = [s].
Proof.
  induction s as [|c rest IH]; simpl; [done|].
  destruct (Ascii.eqb c "."); simpl; [done|]. intros H. by rewrite (IH H).
Qed.

Lemma split_dot_dotted a b : split_dot (dotted a b) = split_dot a ++ split_dot b.
Proof.
  unfold dotted. induction a as [|c rest IH]; simpl; [done|].
  destruct (Ascii.eqb c "."); simpl; [by rewrite IH|].
  rewrite IH. pose proof (split_dot_nonempty rest) as Hne.
  by destruct (split_dot rest).
Qed.

(** X15. [split_dot] is [s.split('.')]: joining the pieces with dots
    gives the string back, no piece holds a dot and there is always at
    least one piece; splitting distributes over a dot
    ([(a + '.' + b).split('.') == a.split('.') + b.split('.')]), so the
    last piece of [a + '.' + ext] is [ext] when [ext] has no dot, and a
    string without a dot is its own single piece. *)
Theorem split_dot_round_trip s :
  String.concat "." (split_dot s) = s /\
  Forall (fun piece => dot_free piece = true) (split_dot s) /\
  split_dot s <> [] /\
  (forall a b, s = dotted a b -> split_dot s = split_dot a ++ split_dot b) /\
  (forall a ext, s = dotted a ext -> dot_free ext = true ->
     last (split_dot s) = Some ext) /\
  (dot_free s = true -> split_dot s = [s]).
Proof.
  split; [|split; [|split; [apply split_dot_nonempty|split; [|split]]]].
  - induction s as [|c rest IH]; simpl; [done|].
    destruct (Ascii.eqb_spec c ".") as [->|Hc].
    + simpl. pose proof (split_dot_nonempty rest) as Hne.
      destruct (split_dot rest) as [|head tail]; [done|]. by rewrite IH.
    + destruct (split_dot rest) as [|head [|next tail]]; simpl in *; by rewrite <- IH.
  - induction s as [|c rest IH]; simpl; [by repeat constructor|].
    destruct (Ascii.eqb c ".") eqn:Hc; [by constructor|].
    destruct (split_dot rest) as [|head tail]; [by repeat constructor; simpl; rewrite Hc|].
    apply Forall_cons in IH as [H1 H2]. constructor; [|done]. simpl. by rewrite Hc, H1.
  - intros a b ->. apply split_dot_dotted.
  - intros a ext -> Hext. rewrite split_dot_dotted, (split_dot_dot_free ext Hext).
    apply last_snoc.
  - apply split_dot_dot_free.
Qed.

(** ["archive.tar.gz"] has the pieces archive, tar and gz. *)
Lemma split_dot_round_trip_witness :
  last (split_dot "archive.tar.gz") = Some "gz" /\ split_dot "mp4" = ["mp4"].
Proof.
  split.
  - destruct (split_dot_round_trip "archive.tar.gz") as (_ & _ & _ & _ & H & _).
    apply (H "archive.tar"); reflexivity.
  - destruct (split_dot_round_trip "mp4") as (_ & _ & _ & _ & _ & H).
    apply H. reflexivity.
Defined.

(** X16. The two format checks look at the MIME type first: when the
    document has one, it alone decides, whatever the file name says, and
    no MIME type is accepted both as an image and as a video.  Without a
    MIME type the extension of the lowered file name decides: the piece
    after the last dot, or the whole name when it has no dot.  A
    document with neither a MIME type nor a file name is accepted by
    both checks. *)
Theorem format_checks lower (file_obj : FileObj) :
  (forall mime, mime_type file_obj = Some mime -> mime <> EmptyString ->
     _is_supported_image lower file_obj = bool_decide (mime ∈ SUPPORTED_IMAGE_FORMATS) /\
     _is_supported_video lower file_obj = bool_decide (mime ∈ SUPPORTED_VIDEO_FORMATS) /\
     (_is_supported_image lower file_obj && _is_supported_video lower file_obj = false)) /\
  (present (mime_type file_obj) = None ->
     (forall name a ext, file_name file_obj = Some name -> name <> EmptyString ->
        lower name = dotted a ext -> dot_free ext = true ->
        _is_supported_image lower file_obj = bool_decide (ext ∈ image_extensions) /\
        _is_supported_video lower file_obj = bool_decide (ext ∈ video_extensions)) /\
     (forall name, file_name file_obj = Some name -> name <> EmptyString ->
        dot_free (lower name) = true ->
        _is_supported_image lower file_obj = bool_decide (lower name ∈ image_extensions) /\
        _is_supported_video lower file_obj = bool_decide (lower name ∈ video_extensions)) /\
     (present (file_name file_obj) = None ->
        _is_supported_image lower file_obj = true /\
        _is_supported_video lower file_obj = true)).
Proof.
  unfold _is_supported_image, _is_supported_video. split.
  - intros mime Hm Hne. unfold present. rewrite Hm.
    unfold truthy. rewrite bool_decide_true by done.
    split; [done|]. split; [done|].
    destruct (bool_decide (mime ∈ SUPPORTED_IMAGE_FORMATS)) eqn:E; [|done].
    apply bool_decide_eq_true in E. simpl.
    unfold SUPPORTED_IMAGE_FORMATS in E.
    repeat (apply elem_of_cons in E as [->|E]; [by vm_compute|]).
    by apply not_elem_of_nil in E.
  - intros Hm. rewrite Hm.
    assert (Hn : forall name, file_name file_obj = Some name -> name <> EmptyString ->
                   present (file_name file_obj) = Some name).
    { intros name -> Hne. unfold present, truthy. by rewrite bool_decide_true. }
    split; [|split].
    + intros name a ext Hf Hne Hl Hext. rewrite (Hn name Hf Hne).
      unfold extension. rewrite Hl, split_dot_dotted, (split_dot_dot_free ext Hext).
      by rewrite last_snoc.
    + intros name Hf Hne Hd. rewrite (Hn name Hf Hne).
      unfold extension. by rewrite (split_dot_dot_free _ Hd).
    + by intros ->.
Qed.

(** A file called ["Clip.MP4"] without a MIME type is a video; a
    document without MIME type and name passes both checks. *)
Lemma format_checks_witness :
  _is_supported_video (fun _ => "clip.mp4")
    {| mime_type := None; file_name := Some "Clip.MP4" |} = true /\
  _is_supported_image id bare_meta = true /\
  _is_supported_image id png_meta && _is_supported_video id png_meta = false.
Proof.
  split; [|split].
  - destruct (format_checks (fun _ => "clip.mp4")
                {| mime_type := None; file_name := Some "Clip.MP4" |}) as (_ & H).
    destruct (H eq_refl) as (H1 & _ & _).
    destruct (H1 "Clip.MP4" "clip" "mp4") as [_ ->]; try reflexivity. discriminate.
  - destruct (format_checks id bare_meta) as (_ & H).
    destruct (H eq_refl) as (_ & _ & H3). by destruct (H3 eq_refl).
  - destruct (format_checks id png_meta) as (H & _).
    destruct (H "image/png" eq_refl) as (_ & _ & H3); [discriminate | exact H3].
Defined.

(* ===================================================================== *)
(** * Start-up: the configuration and the user client *)
(* ===================================================================== *)

(** X17. [initialize_user_client] never raises.  It returns [True]
    exactly when the three credentials are all set, the [Client] is
    constructed and its [start()] returns.  The attribute [user_client]
    is assigned before [start()] is awaited: it is set whenever the
    client was constructed, also when [start()] raised and the function
    returned [False]; without credentials, or when the constructor
    raises, it is left as it was.  Nothing else of the bot changes. *)
Theorem initialize_user_client_result config constructor_raises started w :
  let credentials := Config.all_credentials (Config.API_ID config)
                       (Config.API_HASH config) (Config.PHONE_NUMBER config) in
  let w' := exec (initialize_user_client config constructor_raises started) w in
  (exists b, outcome (initialize_user_client config constructor_raises started) w = Ok b /\
     (b = true <-> credentials = true /\ constructor_raises = false /\ started = Ok tt)) /\
  (credentials = true -> constructor_raises = false -> user_client w' = true) /\
  (credentials = false \/ constructor_raises = true -> user_client w' = user_client w) /\
  stats w' = stats w /\ user_states w' = user_states w /\
  user_banners w' = user_banners w /\ processing_users w' = processing_users w /\
  files w' = files w /\
  Forall (fun e => e = LogLine) (new_events w w').
Proof.
  simpl. unfold outcome, exec, initialize_user_client, try_except, bind, log_line,
    modify, ret, raise, new_events.
  destruct (Config.all_credentials _ _ _); simpl.
  - destruct constructor_raises; simpl.
    + rewrite drop_app_length.
      split; [exists false; split; [done|]; split; [done | intros (_ & [=] & _)]|].
      repeat split; try done. by repeat constructor.
    + destruct started as [[]|e]; simpl; rewrite drop_app_length.
      * split; [by exists true|].
        repeat split; try done; try (by intros [?|?]); by repeat constructor.
      * split; [exists false; split; [done|]; split; [done | intros (_ & _ & [=])]|].
        repeat split; try done; try (by intros [?|?]); by repeat constructor.
  - rewrite drop_app_length.
    split; [exists false; split; [done|]; split; [done | intros ([=] & _)]|].
    repeat split; try done; try (by intros [?|?]); by repeat constructor.
Qed.

(** The client is constructed from full credentials but [start()]
    raises: the function returns [False] and [user_client] is set. *)
Lemma initialize_user_client_result_witness :
  let config := Config.read_environment full_environ int_of id in
  user_client (exec (initialize_user_client config false (Raise OtherError))
                    (bot_init false ∅)) = true.
Proof.
  intros config.
  destruct (initialize_user_client_result config false (Raise OtherError) (bot_init false ∅))
    as (_ & H & _).
  apply H; reflexivity.
Defined.

Lemma _get_int_env_default environ int key n :
  Config._get_int_env environ int key (Some n) <> None.
Proof.
  unfold Config._get_int_env. destruct (environ !! key) as [v|]; [|done].
  by destruct (int v).
Qed.

(** X18. [BotConfig()] raises [ValueError] exactly when BOT_TOKEN is
    missing from the environment or empty.  A configuration that is
    built has the token of the environment; its USE_USER_CLIENT is true
    exactly when the variable (default ["true"]) lowers to ["true"] and
    API_ID, API_HASH and PHONE_NUMBER are all truthy; the integer
    settings with a default are never [None], a value that is not a
    number falls back to the default, and a number is taken as it is,
    without a range check; both directories could be created. *)
Theorem config_init_cases environ int lower dirname mkdir_raises :
  let r := Config.init environ int lower dirname mkdir_raises in
  (r = Config.RaisedValueError <->
     environ !! "BOT_TOKEN" = None \/ environ !! "BOT_TOKEN" = Some EmptyString) /\
  (forall c, r = Config.Built c ->
     environ !! "BOT_TOKEN" = Some (Config.BOT_TOKEN c) /\
     Config.BOT_TOKEN c <> EmptyString /\
     (Config.USE_USER_CLIENT c = true <->
        lower (Config.getenv environ "USE_USER_CLIENT" "true") = "true" /\
        Config.all_credentials (Config.API_ID c) (Config.API_HASH c)
          (Config.PHONE_NUMBER c) = true) /\
     Config.MAX_FILE_SIZE c <> None /\ Config.MAX_WORKERS c <> None /\
     Config.PROCESSING_TIMEOUT c <> None /\ Config.FFMPEG_CRF c <> None /\
     (forall v, environ !! "MAX_FILE_SIZE" = Some v -> int v = None ->
        Config.MAX_FILE_SIZE c = Some (2 * 1024 * 1024 * 1024)) /\
     (forall v n, environ !! "MAX_FILE_SIZE" = Some v -> int v = Some n ->
        Config.MAX_FILE_SIZE c = Some n) /\
     mkdir_raises (Config.TEMP_DIR c) = false /\
     mkdir_raises (dirname (Config.LOG_FILE c)) = false).
Proof.
  simpl. unfold Config.init, Config._validate_config.
  set (self := Config.read_environment environ int lower).
  assert (Ht : Config.BOT_TOKEN self = Config.getenv environ "BOT_TOKEN" EmptyString) by done.
  set (self' := if Config.USE_USER_CLIENT self
                then if negb (Config.all_credentials (Config.API_ID self)
                                (Config.API_HASH self) (Config.PHONE_NUMBER self))
                     then Config.disable_user_client self else self
                else self).
  assert (Hsame : Config.BOT_TOKEN self' = Config.BOT_TOKEN self /\
            Config.API_ID self' = Config.API_ID self /\
            Config.API_HASH self' = Config.API_HASH self /\
            Config.PHONE_NUMBER self' = Config.PHONE_NUMBER self /\
            Config.MAX_FILE_SIZE self' = Config.MAX_FILE_SIZE self /\
            Config.MAX_WORKERS self' = Config.MAX_WORKERS self /\
            Config.PROCESSING_TIMEOUT self' = Config.PROCESSING_TIMEOUT self /\
            Config.FFMPEG_CRF self' = Config.FFMPEG_CRF self /\
            Config.USE_USER_CLIENT self'
            = Config.USE_USER_CLIENT self
              && Config.all_credentials (Config.API_ID self) (Config.API_HASH self)
                   (Config.PHONE_NUMBER self)).
  { unfold self'. destruct (Config.USE_USER_CLIENT self) eqn:U; [|by rewrite ?U].
    destruct (Config.all_credentials _ _ _) eqn:A; simpl; by rewrite ?U, ?A. }
  destruct Hsame as (S1 & S2 & S3 & S4 & S5 & S6 & S7 & S8 & S9).
  unfold Config.getenv in Ht.
  split.
  - unfold truthy. rewrite Ht.
    destruct (environ !! "BOT_TOKEN") as [token|] eqn:E.
    + destruct (decide (token = EmptyString)) as [->|Hne].
      * rewrite bool_decide_false by (by intros ?). simpl. split; [by right | done].
      * rewrite bool_decide_true by done. simpl. split.
        -- by repeat destruct (mkdir_raises _).
        -- by intros [?|[= ?]].
    + rewrite bool_decide_false by (by intros ?). simpl. split; [by left | done].
  - intros c. unfold truthy. rewrite Ht.
    destruct (environ !! "BOT_TOKEN") as [token|] eqn:E.
    2: { by rewrite bool_decide_false by (by intros ?). }
    destruct (decide (token = EmptyString)) as [->|Hne].
    { by rewrite bool_decide_false by (by intros ?). }
    rewrite bool_decide_true by done. simpl.
    destruct (mkdir_raises (Config.TEMP_DIR self')) eqn:M1; [done|].
    destruct (mkdir_raises (dirname (Config.LOG_FILE self'))) eqn:M2; [done|].
    intros [= <-]. rewrite S1, S2, S3, S4, S5, S6, S7, S8, S9, Ht.
    split; [done|]. split; [done|]. split.
    { rewrite andb_true_iff. unfold self at 1. simpl.
      by rewrite bool_decide_eq_true. }
    split; [apply _get_int_env_default|]. split; [apply _get_int_env_default|].
    split; [apply _get_int_env_default|]. split; [apply _get_int_env_default|].
    split; [|split; [|done]].
    + intros v Hv Hi. unfold self. simpl. unfold Config._get_int_env. by rewrite Hv, Hi.
    + intros v n Hv Hi. unfold self. simpl. unfold Config._get_int_env. by rewrite Hv, Hi.
Qed.

(** With a token, full credentials and a MAX_FILE_SIZE that is not a
    number, the configuration is built with the default of 2 GiB and the
    user client enabled; with an API id that is not a number the user
    client is disabled. *)
Lemma config_init_cases_witness :
  (exists c, Config.init full_environ int_of id dirname_of (fun _ => false) = Config.Built c /\
             Config.MAX_FILE_SIZE c = Some (2 * 1024 * 1024 * 1024) /\
             Config.USE_USER_CLIENT c = true) /\
  (exists c, Config.init bad_id_environ int_of id dirname_of (fun _ => false) = Config.Built c /\
             Config.USE_USER_CLIENT c = false).
Proof.
  split.
  - eexists. split; [reflexivity|].
    destruct (config_init_cases full_environ int_of id dirname_of (fun _ => false))
      as [_ H].
    destruct (H _ eq_refl) as (_ & _ & H3 & _ & _ & _ & _ & H8 & _).
    split; [apply (H8 "huge"); reflexivity|].
    apply H3. split; reflexivity.
  - eexists. split; [reflexivity|].
    destruct (config_init_cases bad_id_environ int_of id dirname_of (fun _ => false))
      as [_ H].
    destruct (H _ eq_refl) as (_ & _ & H3 & _).
    destruct (Config.USE_USER_CLIENT _) eqn:E; [|reflexivity].
    destruct H3 as [H3 _]. destruct (H3 eq_refl) as [_ H4]. vm_compute in H4. discriminate.
Defined.

(** X19. Start-up composes: on a configuration that [BotConfig()] has
    built with USE_USER_CLIENT true (the only case in which [run] calls
    it), [initialize_user_client] never takes its branch for missing
    credentials: it returns [True] exactly when the client is constructed
    and started, and [user_client] is set as soon as the client is
    constructed. *)
Theorem validated_config_starts_client environ int lower dirname mkdir_raises c
    constructor_raises started w :
  Config.init environ int lower dirname mkdir_raises = Config.Built c ->
  Config.USE_USER_CLIENT c = true ->
  (exists b, outcome (initialize_user_client c constructor_raises started) w = Ok b /\
     (b = true <-> constructor_raises = false /\ started = Ok tt)) /\
  (constructor_raises = false ->
     user_client (exec (initialize_user_client c constructor_raises started) w) = true).
Proof.
  intros Hinit Huse.
  assert (Hcred : Config.all_credentials (Config.API_ID c) (Config.API_HASH c)
                    (Config.PHONE_NUMBER c) = true).
  { revert Hinit Huse. unfold Config.init, Config._validate_config.
    destruct (negb _); [done|].
    set (self := Config.read_environment environ int lower).
    destruct (Config.USE_USER_CLIENT self) eqn:U.
    - destruct (Config.all_credentials (Config.API_ID self) (Config.API_HASH self)
                  (Config.PHONE_NUMBER self)) eqn:A; simpl.
      + repeat destruct (mkdir_raises _); try done. by intros [= <-].
      + repeat destruct (mkdir_raises _); try done. by intros [= <-].
      - repeat destruct (mkdir_raises _); try done. intros [= <-]. congruence. }
  unfold outcome, exec, initialize_user_client, try_except, bind, log_line,
    modify, ret, raise.
  rewrite Hcred. simpl.
  destruct constructor_raises; simpl.
  - split; [|done]. exists false. split; [done|]. split; [done | by intros [? _]].
  - destruct started as [[]|e]; simpl.
    + split; [|done]. by exists true.
    + split; [|done]. exists false. split; [done|]. split; [done | by intros [_ ?]].
Qed.

(** The configuration of the full environment starts the client. *)
Lemma validated_config_starts_client_witness :
  exists c, Config.init full_environ int_of id dirname_of (fun _ => false) = Config.Built c /\
    outcome (initialize_user_client c false (Ok tt)) (bot_init false ∅) = Ok true.
Proof.
  exists (Config.read_environment full_environ int_of id). split; [reflexivity|].
  destruct (validated_config_starts_client full_environ int_of id dirname_of
              (fun _ => false) (Config.read_environment full_environ int_of id)
              false (Ok tt) (bot_init false ∅) eq_refl eq_refl)
    as [(b & Hb & Hiff) _].
  rewrite Hb. f_equal. by apply Hiff.
Defined.

(* ===================================================================== *)
(** * Banner upload *)
(* ===================================================================== *)

Lemma handle_banner_except_stable_extends env w :
  extends (fun _ => True) w
    (exec (log_line ;;; reply_text env BannerError ;;; modify (set_stats count_error)) w).
Proof.
  revert w.
  change (stable (extends (fun _ => True))
            (log_line ;;; reply_text env BannerError ;;; modify (set_stats count_error))).
  apply stable_bind; [by apply stable_log_line|]. intros _.
  apply stable_bind; [by apply stable_channel|]. intros _.
  by apply stable_quiet.
Qed.

Lemma handle_banner_keeps_download env user_id message w p wb :
  user_states w !! user_id = Some WAITING_BANNER ->
  chan_raises env (length (trace w)) = false ->
  temp_name env (S (length (trace w))) = Some p ->
  smart_download env message p (Some (progress_callback env)) (banner_download_start w p)
    = (Ok true, wb) ->
  files (exec (handle_banner env user_id message) w) = files wb /\
  extends (fun _ => True) wb (exec (handle_banner env user_id message) w).
Proof.
  intros Hst Hch Htmp Hdl.
  change (wp (handle_banner env user_id message)
             (fun _ w' => files w' = files wb /\ extends (fun _ => True) wb w') w).
  unfold handle_banner. apply wp_bind, wp_gets. unfold then_wp. rewrite Hst.
  destruct (decide (Some WAITING_BANNER <> Some WAITING_BANNER)) as [?|_]; [done|].
  assert (Hex : forall w1, files w1 = files wb -> extends (fun _ => True) wb w1 ->
            wp (log_line ;;; reply_text env BannerError ;;; modify (set_stats count_error))
               (fun _ w' => files w' = files wb /\ extends (fun _ => True) wb w') w1).
  { intros w1 H1 H2. split.
    - unfold wp, exec, bind, log_line, modify, reply_text, channel. simpl.
      by match goal with |- context [chan_raises env ?n] => destruct (chan_raises env n) end.
    - eapply (frame_trans (R := extends _)); [exact H2|].
      apply handle_banner_except_stable_extends. }
  apply wp_try_except, wp_bind, wp_channel; intros Hch'; [congruence|].
  apply wp_bind, wp_NamedTemporaryFile; simpl; rewrite length_app; simpl;
    replace (length (trace w) + 1)%nat with (S (length (trace w))) by lia;
    [intros p' Htmp' | congruence].
  assert (p' = p) as -> by congruence.
  fold (banner_download_start w p).
  apply wp_bind. unfold wp at 1, outcome, exec. rewrite Hdl. simpl.
  apply wp_bind, wp_modify. simpl.
  apply wp_bind, wp_getsize; simpl;
    [intros size _ | intros _; apply Hex; [done | by apply extends_quiet]].
  apply wp_bind, wp_channel; intros Hn; simpl;
    [apply Hex; [done | eexists; split; [simpl; reflexivity | by repeat constructor]]|].
  apply wp_modify. split; [done|].
  eexists; split; [simpl; reflexivity | by repeat constructor].
Qed.

(** X20. [handle_banner] stores nothing but a download.  Outside
    WAITING_BANNER it only replies that /start comes first.  In
    WAITING_BANNER the state either stays or moves to WAITING_VIDEO, and
    whenever it has moved, or the stored banners have changed, the
    download into a new temporary file has succeeded: that file is
    stored as the banner of the user and is on disk and not empty when
    the handler is left. *)
Theorem handle_banner_stores_only_a_download env user_id message w :
  let w' := exec (handle_banner env user_id message) w in
  (user_states w !! user_id <> Some WAITING_BANNER ->
     same_session w w' /\ files w' = files w /\ only_call (ReplyText StartFirst) w w') /\
  (user_states w !! user_id = Some WAITING_BANNER ->
     (user_states w' = user_states w \/
      user_states w' = <[user_id := WAITING_VIDEO]> (user_states w)) /\
     (user_states w' !! user_id = Some WAITING_VIDEO \/ user_banners w' <> user_banners w ->
        exists p, TempFile p ∈ new_events w w' /\
                  user_banners w' !! user_id = Some p /\ nonempty_at p w')).
Proof.
  simpl. split.
  - intros Hst. unfold exec, handle_banner, bind, gets. simpl.
    destruct (decide (user_states w !! user_id <> Some WAITING_BANNER)); [|done].
    destruct (channel_only_call env (ReplyText StartFirst) w) as (H1 & H2 & H3).
    by split; [|split].
  - intros Hst.
    pose proof (handle_banner_cases env user_id message w Hst) as Hc.
    split.
    { destruct Hc as [[E _]|(p & wb & _ & _ & _ & _ & E)]; [by left | exact E]. }
    intros Hadv.
    destruct Hc as [[E1 E2]|(p & wb & Hch & Htmp & Hdl & Hb & _)].
    { destruct Hadv as [H|H]; [|done]. rewrite E1, Hst in H. discriminate. }
    destruct (handle_banner_keeps_download env user_id message w p wb Hst Hch Htmp Hdl)
      as (Hf & l2 & E2 & _).
    exists p. split; [|split].
    + pose proof (stable_smart_download (R := extends (fun _ => True)) env message p
                    (Some (progress_callback env))
                    (fun _ _ => I) (fun _ _ => I) I
                    (fun x => stable_progress_callback (R := extends (fun _ => True))
                                env x (fun _ => I) (fun _ => I))
                    (banner_download_start w p)) as (l1 & E1 & _).
      unfold exec in E1. rewrite Hdl in E1. simpl in E1.
      unfold new_events. rewrite E2, E1. simpl.
      rewrite <- !app_assoc, drop_app_length. simpl.
      apply list_elem_of_further, list_elem_of_here.
    + rewrite Hb. apply lookup_insert_eq.
    + destruct (smart_download_true _ _ _ _ _ _ Hdl) as (size & Hs & Hpos).
      exists size. split; [|done]. by rewrite Hf.
Qed.

(** The banner of user 7 arrives over the bot API. *)
Lemma handle_banner_stores_only_a_download_witness :
  let w' := exec (handle_banner banner_ok_env 7 photo_message) waiting_banner in
  exists p, TempFile p ∈ new_events waiting_banner w' /\
            user_banners w' !! 7 = Some p /\ nonempty_at p w'.
Proof.
  intros w'.
  destruct (handle_banner_stores_only_a_download banner_ok_env 7 photo_message waiting_banner)
    as [_ H].
  destruct (H eq_refl) as [_ H2]. apply H2. left. reflexivity.
Defined.

(* ===================================================================== *)
(** * One banner, one video *)
(* ===================================================================== *)

(** X21. A video is never taken twice in a row: whatever the first
    [handle_video] did, the next video of the same user is rejected with
    a single reply and nothing else.  When the first video was taken,
    the job has consumed the banner and left the state at PROCESSING or
    IDLE, so the reply is the request to send a banner first, also when
    the job failed; when the first was rejected, the second is rejected
    for the same reason. *)
Theorem video_never_taken_twice env1 env2 user_id message1 message2 w :
  let w1 := exec (handle_video env1 user_id message1) w in
  exists n, video_rejection user_id w1 = Some n /\
    handle_video env2 user_id message2 w1 = reply_text env2 n w1 /\
    (video_rejection user_id w = None -> n = SendBannerFirst) /\
    (forall n0, video_rejection user_id w = Some n0 -> n = n0).
Proof.
  simpl. set (w1 := exec (handle_video env1 user_id message1) w).
  destruct (video_rejection user_id w) as [n0|] eqn:Hv.
  - destruct (handle_video_rejected env1 user_id message1 w n0 Hv)
      as (_ & (_ & Es & Eb & Ep & _) & _).
    fold w1 in Es, Eb, Ep.
    assert (Hv1 : video_rejection user_id w1 = Some n0).
    { unfold video_rejection in *. by rewrite Es, Eb, Ep. }
    exists n0. split; [exact Hv1|]. split; [|split; [done | by intros ? [= ->]]].
    unfold handle_video. by rewrite Hv1.
  - assert (Hv1 : video_rejection user_id w1 = Some SendBannerFirst).
    { unfold video_rejection.
      destruct (handle_video_state_after_job env1 user_id message1 w Hv) as [H|[H _]];
        fold w1 in H; rewrite H;
        (destruct (decide (_ <> Some WAITING_VIDEO)) as [?|Hn]; [done | by destruct Hn]). }
    exists SendBannerFirst. split; [exact Hv1|]. split; [|split; [done | by intros ?]].
    unfold handle_video. by rewrite Hv1.
Qed.

(** A second video after a job that succeeded. *)
Lemma video_never_taken_twice_witness :
  let w1 := exec (handle_video (success_env 5000) 7 video_message) ready in
  handle_video (success_env 5000) 7 video_message w1
  = reply_text (success_env 5000) SendBannerFirst w1.
Proof.
  intros w1.
  destruct (video_never_taken_twice (success_env 5000) (success_env 5000) 7
              video_message video_message ready) as (n & _ & H2 & H3 & _).
  fold w1 in H2. rewrite H2. by rewrite (H3 eq_refl).
Defined.
